(** * QueueMincer: storage-abstraction layer

    A shallow embedding of the queue core of QueueMincer:
    - [src/queue/queue-manager.ts]   : [DefaultQueueManager]
    - [src/loaders/*.ts]             : the Memory, JSON and CSV loaders
    - [src/loaders/googlesheet-loader.ts] : the cell coercion of [loadSheet]

    JavaScript values are modelled as JSON values ([jsv]); numbers are
    finite decimals [m / 10^e] kept in canonical form (the inputs of the
    program are JSON documents, CSV cells and sheet cells, all decimal).
    Arrays are mutable and shared by reference in the source, so they live
    in an explicit heap and are passed around as locations. *)

From Stdlib Require Import String Ascii List Bool ZArith Arith Lia.
Import ListNotations.
Open Scope bool_scope.
Open Scope string_scope.
Open Scope nat_scope.
Set Warnings "-register-all,-unused-intro-pattern".

(* ------------------------------------------------------------------ *)
(** ** JavaScript values *)

Inductive jsv : Type :=
| JNull
| JBool (b : bool)
| JNum (m : Z) (e : nat)            (* the number m / 10^e *)
| JStr (s : string)
| JArr (xs : list jsv)
| JObj (kvs : list (string * jsv)).

(** [typeof v] *)
Definition typeof (v : jsv) : string :=
  match v with
  | JNull => "object"
  | JBool _ => "boolean"
  | JNum _ _ => "number"
  | JStr _ => "string"
  | JArr _ | JObj _ => "object"
  end.

Definition is_null (v : jsv) : bool :=
  match v with JNull => true | _ => false end.

(** JavaScript truthiness ([x || null] keeps [x] only when it is truthy). *)
Definition truthy (v : jsv) : bool :=
  match v with
  | JNull => false
  | JBool b => b
  | JNum m _ => negb (Z.eqb m 0)
  | JStr s => negb (String.eqb s "")
  | JArr _ | JObj _ => true
  end.

Definition or_null (v : jsv) : jsv := if truthy v then v else JNull.

(* ------------------------------------------------------------------ *)
(** ** Strings *)

Definition ascii_lower (c : ascii) : ascii :=
  let n := nat_of_ascii c in
  if (65 <=? n) && (n <=? 90) then ascii_of_nat (n + 32) else c.

(** [String.prototype.toLowerCase] on the ASCII range. *)
Fixpoint lower (s : string) : string :=
  match s with
  | EmptyString => EmptyString
  | String c r => String (ascii_lower c) (lower r)
  end.

Definition ascii_upper (c : ascii) : ascii :=
  let n := nat_of_ascii c in
  if (97 <=? n) && (n <=? 122) then ascii_of_nat (n - 32) else c.

(** [String.prototype.toUpperCase] on the ASCII range. *)
Fixpoint upper (s : string) : string :=
  match s with
  | EmptyString => EmptyString
  | String c r => String (ascii_upper c) (upper r)
  end.

(** Whether a name holds a [/]: a file name without one is joined to the
    templates directory by [path.join] unchanged. *)
Fixpoint has_slash (s : string) : bool :=
  match s with
  | EmptyString => false
  | String c r => Ascii.eqb c "/"%char || has_slash r
  end.

Definition is_digit (c : ascii) : bool :=
  let n := nat_of_ascii c in (48 <=? n) && (n <=? 57).

Definition digit_val (c : ascii) : nat := nat_of_ascii c - 48.

Fixpoint string_of_list (l : list ascii) : string :=
  match l with [] => EmptyString | c :: r => String c (string_of_list r) end.

Fixpoint z_digits (fuel : nat) (n : Z) (acc : list ascii) : list ascii :=
  match fuel with
  | O => acc
  | S f =>
      let acc' := ascii_of_nat (48 + Z.to_nat (Z.modulo n 10)) :: acc in
      if Z.ltb n 10 then acc' else z_digits f (Z.div n 10) acc'
  end.

(** [String(n)] for a non-negative integer. *)
Definition string_of_Z (n : Z) : string :=
  string_of_list (z_digits (S (Z.to_nat (Z.log2 n))) n []).

Definition string_of_nat (n : nat) : string := string_of_Z (Z.of_nat n).

Fixpoint ends_with (suffix s : string) : bool :=
  if String.eqb s suffix then true
  else match s with EmptyString => false | String _ r => ends_with suffix r end.

Fixpoint all_digits (s : string) : bool :=
  match s with
  | EmptyString => true
  | String c r => is_digit c && all_digits r
  end.

(** A canonical array index: ["0"] or digits without a leading zero. *)
Fixpoint digits_value (s : string) (acc : nat) : nat :=
  match s with
  | EmptyString => acc
  | String c r => digits_value r (acc * 10 + digit_val c)
  end.

Definition array_index (k : string) : option nat :=
  match k with
  | EmptyString => None
  | String c r =>
      if all_digits k && (String.eqb k "0" || negb (Ascii.eqb c "0"%char))
      then Some (digits_value k 0) else None
  end.

(* ------------------------------------------------------------------ *)
(** ** Property access: [k in v] and [v[k]]

    Own properties come first; failing that, the property is looked up on
    the prototype ([Object.prototype], and [Array.prototype] for arrays,
    as in Node 20).  Inherited properties are functions, except
    [__proto__], whose getter returns the prototype object itself. *)

Definition object_proto_names : list string :=
  ["constructor"; "__defineGetter__"; "__defineSetter__"; "hasOwnProperty";
   "__lookupGetter__"; "__lookupSetter__"; "isPrototypeOf";
   "propertyIsEnumerable"; "toString"; "valueOf"; "toLocaleString"].

Definition array_proto_names : list string :=
  ["at"; "concat"; "copyWithin"; "entries"; "every"; "fill"; "filter";
   "find"; "findIndex"; "findLast"; "findLastIndex"; "flat"; "flatMap";
   "forEach"; "includes"; "indexOf"; "join"; "keys"; "lastIndexOf"; "map";
   "pop"; "push"; "reduce"; "reduceRight"; "reverse"; "shift"; "slice";
   "some"; "sort"; "splice"; "toReversed"; "toSorted"; "toSpliced";
   "unshift"; "values"; "with"].

(** What a property read can produce. *)
Inductive prop_val : Type :=
| PData (v : jsv)          (* an own data property *)
| PFun                     (* an inherited method *)
| PProto (is_arr : bool).  (* [__proto__]: Object.prototype / Array.prototype *)

Fixpoint assoc (k : string) (kvs : list (string * jsv)) : option jsv :=
  match kvs with
  | [] => None
  | (k', v) :: r => if String.eqb k k' then Some v else assoc k r
  end.

Definition own_get (v : jsv) (k : string) : option jsv :=
  match v with
  | JObj kvs => assoc k kvs
  | JArr xs =>
      if String.eqb k "length" then Some (JNum (Z.of_nat (length xs)) 0)
      else match array_index k with
           | Some i => nth_error xs i
           | None => None
           end
  | JStr s =>
      if String.eqb k "length" then Some (JNum (Z.of_nat (String.length s)) 0)
      else match array_index k with
           | Some i => option_map (fun c => JStr (String c EmptyString)) (String.get i s)
           | None => None
           end
  | _ => None
  end.

Definition inherited (v : jsv) (k : string) : bool :=
  existsb (String.eqb k) object_proto_names
  || match v with
     | JArr _ => existsb (String.eqb k) array_proto_names
     | _ => false
     end.

(** [k in v] together with the value [v[k]], for an object or array [v]. *)
Definition js_get (v : jsv) (k : string) : option prop_val :=
  match own_get v k with
  | Some x => Some (PData x)
  | None =>
      if String.eqb k "__proto__"
      then Some (PProto (match v with JArr _ => true | _ => false end))
      else if inherited v k then Some PFun else None
  end.

Definition typeof_p (p : prop_val) : string :=
  match p with PData v => typeof v | PFun => "function" | PProto _ => "object" end.

Definition is_null_p (p : prop_val) : bool :=
  match p with PData JNull => true | _ => false end.

(** [Array.isArray] *)
Definition is_array_p (p : prop_val) : bool :=
  match p with PData (JArr _) => true | PProto b => b | _ => false end.

(* ------------------------------------------------------------------ *)
(** ** Item validation ([DefaultQueueManager.validateItem]) *)

(** An item template: field name -> declared kind, in [Object.entries]
    order. *)
Definition template := list (string * string).

(** The [switch (type.toLowerCase())] of the loop body. *)
Definition kind_ok (ty : string) (value : prop_val) : bool :=
  let t := lower ty in
  if String.eqb t "string" then String.eqb (typeof_p value) "string"
  else if String.eqb t "number" then String.eqb (typeof_p value) "number"
  else if String.eqb t "boolean" then String.eqb (typeof_p value) "boolean"
  else if String.eqb t "object" then
    String.eqb (typeof_p value) "object" && negb (is_null_p value)
  else if String.eqb t "array" then is_array_p value
  else true.

(** The [for (const [key, type] of Object.entries(itemTemplate))] loop. *)
Fixpoint check_fields (fields : template) (item : jsv) : bool :=
  match fields with
  | [] => true
  | (key, ty) :: rest =>
      match js_get item key with
      | None => false
      | Some value => if kind_ok ty value then check_fields rest item else false
      end
  end.

Definition validateItem (itemTemplate : option template) (item : jsv) : bool :=
  match itemTemplate with
  | None => true
  | Some t =>
      if negb (String.eqb (typeof item) "object") || is_null item then false
      else check_fields t item
  end.

(* ------------------------------------------------------------------ *)
(** ** Cell coercion on read (CSV [convertTypes], Sheets [loadSheet]) *)

Fixpoint span_digits (s : string) : string * string :=
  match s with
  | EmptyString => (EmptyString, EmptyString)
  | String c r =>
      if is_digit c then let (d, t) := span_digits r in (String c d, t)
      else (EmptyString, s)
  end.

(** [/^-?\d+(\.\d+)?$/.test(value)] *)
Definition numeric_regex (s : string) : bool :=
  let body := match s with
              | String c r => if Ascii.eqb c "-"%char then r else s
              | EmptyString => s
              end in
  let (d, t) := span_digits body in
  negb (String.eqb d "")
  && match t with
     | EmptyString => true
     | String c f => Ascii.eqb c "."%char && negb (String.eqb f "") && all_digits f
     end.

(** Canonical decimal: no trailing zero after the point. *)
Fixpoint norm_num (m : Z) (e : nat) : jsv :=
  match e with
  | O => JNum m O
  | S e' => if Z.eqb (Z.modulo m 10) 0 then norm_num (Z.div m 10) e' else JNum m e
  end.

(** [parseFloat(value)] on a string accepted by [numeric_regex]: the
    decimal it denotes (the rounding to a binary double is not modelled). *)
Definition parseFloat (s : string) : jsv :=
  let (neg, body) := match s with
                     | String c r => if Ascii.eqb c "-"%char then (true, r) else (false, s)
                     | EmptyString => (false, s)
                     end in
  let (d, t) := span_digits body in
  let f := match t with String _ f => f | EmptyString => EmptyString end in
  let m := Z.of_nat (digits_value (d ++ f) 0) in
  norm_num (if neg then Z.opp m else m) (String.length f).

(** The per-cell body of [CsvLoader.convertTypes]. *)
Definition convert_cell (value : string) : jsv :=
  if numeric_regex value then parseFloat value
  else if String.eqb (lower value) "true" then JBool true
  else if String.eqb (lower value) "false" then JBool false
  else JStr value.

(** [result[key] = v] on a plain object: replace in place or append. *)
Fixpoint obj_set (kvs : list (string * jsv)) (k : string) (v : jsv)
  : list (string * jsv) :=
  match kvs with
  | [] => [(k, v)]
  | (k', v') :: r => if String.eqb k k' then (k, v) :: r else (k', v') :: obj_set r k v
  end.

(** [o[k] = v] on a plain object, kept as its own properties and whether
    its prototype is still [Object.prototype] ([proto = true]) or [null].
    While it is [Object.prototype], the key [__proto__] reaches the
    inherited accessor instead of making an own property: [null] makes
    the prototype [null], anything else leaves it as it is (an object
    value, which would become the prototype, never occurs below). *)
Definition obj_assign (o : list (string * jsv) * bool) (k : string) (v : jsv)
  : list (string * jsv) * bool :=
  let (kvs, proto) := o in
  if proto && String.eqb k "__proto__" then (kvs, negb (is_null v))
  else (obj_set kvs k v, proto).

(** [CsvLoader.convertTypes]: [result[key] = ...] for every entry of the
    row csv-parser made, in insertion order (keys that are array indices,
    which [Object.entries] lists first, are not reordered). *)
Definition convertTypes (row : list (string * string)) : jsv :=
  JObj (fst (fold_left (fun acc '(k, v) => obj_assign acc k (convert_cell v)) row ([], true))).

(** The value conversion inside [GoogleSheetLoader.loadSheet]. *)
Definition sheet_cell (value : string) : jsv :=
  if numeric_regex value then parseFloat value
  else if String.eqb (lower value) "true" then JBool true
  else if String.eqb (lower value) "false" then JBool false
  else JStr value.

(** One step of [headers.forEach((header, index) => ...)] in [loadSheet]:
    [item[header] = value], where a missing trailing cell is [null]. *)
Definition sheet_step (row : list string) (st : (list (string * jsv) * bool) * nat)
    (header : string) : (list (string * jsv) * bool) * nat :=
  let '(item, index) := st in
  (obj_assign item header
     (match nth_error row index with
      | Some value => sheet_cell value
      | None => JNull
      end), S index).

(** One data row of [loadSheet] to an item. *)
Definition sheet_row_to_item (headers row : list string) : jsv :=
  JObj (fst (fst (fold_left (sheet_step row) headers (([], true), 0)))).


(* ------------------------------------------------------------------ *)
(** ** Heap of arrays, file system, world *)

Definition loc := nat.

Record heap := mkHeap { hcells : loc -> list jsv; hnext : loc }.

Definition hread (h : heap) (l : loc) : list jsv := hcells h l.

Definition hwrite (h : heap) (l : loc) (xs : list jsv) : heap :=
  mkHeap (fun l' => if Nat.eqb l' l then xs else hcells h l') (hnext h).

Definition halloc (h : heap) (xs : list jsv) : loc * heap :=
  (hnext h, mkHeap (fun l' => if Nat.eqb l' (hnext h) then xs else hcells h l')
                   (S (hnext h))).

Definition empty_heap : heap := mkHeap (fun _ => []) 0.

(** The templates directory: file name -> content, in [readdir] order;
    a write replaces a file in place or creates it at the end. *)
Definition fsys (F : Type) := list (string * F).

Fixpoint fs_lookup {F} (name : string) (fs : fsys F) : option F :=
  match fs with
  | [] => None
  | (n, c) :: r => if String.eqb name n then Some c else fs_lookup name r
  end.

Fixpoint fs_write {F} (name : string) (c : F) (fs : fsys F) : fsys F :=
  match fs with
  | [] => [(name, c)]
  | (n, c') :: r => if String.eqb name n then (n, c) :: r else (n, c') :: fs_write name c r
  end.

(** [QueueConfig] (the fields the core reads). *)
Record config := mkConfig {
  inMemory : bool;
  cfg_itemTemplate : option template;
  put : bool
}.

(** The private fields of [DefaultQueueManager]. *)
Record mgr_state := mkMgr {
  m_items : loc;
  m_initialized : bool;
  m_itemTemplate : option template
}.

(** The whole program state: the heap of arrays, the backing files, the
    loader's private fields ([L]) and the manager's. *)
Record world (L F : Type) := mkWorld {
  w_heap : heap;
  w_fs : fsys F;
  w_loader : L;
  w_mgr : mgr_state
}.
Arguments mkWorld {L F}.
Arguments w_heap {L F}.
Arguments w_fs {L F}.
Arguments w_loader {L F}.
Arguments w_mgr {L F}.

(* ------------------------------------------------------------------ *)
(** ** A state and exception monad (async methods that may throw) *)

Inductive outcome (A : Type) : Type :=
| Ok (a : A)
| Err (msg : string).
Arguments Ok {A}.
Arguments Err {A}.

Definition M (S A : Type) := S -> outcome A * S.

Definition ret {S A} (a : A) : M S A := fun s => (Ok a, s).
Definition bind {S A B} (m : M S A) (k : A -> M S B) : M S B :=
  fun s => match m s with
           | (Ok a, s') => k a s'
           | (Err e, s') => (Err e, s')
           end.
Definition throw {S A} (msg : string) : M S A := fun s => (Err msg, s).
(** [try { m } catch { h }] *)
Definition catch {S A} (m : M S A) (h : string -> M S A) : M S A :=
  fun s => match m s with
           | (Err e, s') => h e s'
           | r => r
           end.
Definition gets {S A} (f : S -> A) : M S A := fun s => (Ok (f s), s).
Definition modify {S} (f : S -> S) : M S unit := fun s => (Ok tt, f s).

Notation "x <- m ;; k" := (bind m (fun x => k))
  (at level 61, m at next level, right associativity).
Notation "m ;;; k" := (bind m (fun _ => k))
  (at level 61, right associativity).

Section WorldOps.
Context {L F : Type}.

Definition set_heap (h : heap) (w : world L F) : world L F :=
  mkWorld h (w_fs w) (w_loader w) (w_mgr w).
Definition set_fs (fs : fsys F) (w : world L F) : world L F :=
  mkWorld (w_heap w) fs (w_loader w) (w_mgr w).
Definition set_loader (l : L) (w : world L F) : world L F :=
  mkWorld (w_heap w) (w_fs w) l (w_mgr w).
Definition set_mgr (m : mgr_state) (w : world L F) : world L F :=
  mkWorld (w_heap w) (w_fs w) (w_loader w) m.

(** Reading, writing and allocating arrays. *)
Definition read (l : loc) : M (world L F) (list jsv) :=
  gets (fun w => hread (w_heap w) l).
Definition write (l : loc) (xs : list jsv) : M (world L F) unit :=
  modify (fun w => set_heap (hwrite (w_heap w) l xs) w).
Definition alloc (xs : list jsv) : M (world L F) loc :=
  fun w => let (l, h) := halloc (w_heap w) xs in (Ok l, set_heap h w).

Definition get_loader : M (world L F) L := gets w_loader.
Definition put_loader (l : L) : M (world L F) unit := modify (set_loader l).
Definition get_mgr : M (world L F) mgr_state := gets w_mgr.
Definition put_mgr (m : mgr_state) : M (world L F) unit := modify (set_mgr m).

End WorldOps.

(* ------------------------------------------------------------------ *)
(** ** The [QueueLoader] interface *)

Class QueueLoader (L F : Type) := {
  ld_initialize : M (world L F) unit;
  ld_getItems : M (world L F) loc;
  ld_loadTemplate : string -> M (world L F) loc;
  ld_hasTemplate : string -> M (world L F) bool;
  ld_getItemSchema : world L F -> option template;
  ld_saveItems : loc -> M (world L F) unit;
  ld_addItemFront : jsv -> M (world L F) unit;
  ld_addItemBack : jsv -> M (world L F) unit;
  ld_removeItemFront : M (world L F) jsv;
  ld_removeItemBack : M (world L F) jsv
}.

(* ------------------------------------------------------------------ *)
(** ** [DefaultQueueManager] (the first class of queue-manager.ts) *)

Section Manager.
Context {L F : Type} {LD : QueueLoader L F}.
Variable cfg : config.

Local Abbreviation W := (world L F).

Definition set_items (l : loc) : M W unit :=
  m <- get_mgr;; put_mgr (mkMgr l (m_initialized m) (m_itemTemplate m)).

Definition mgr_initialize : M W unit :=
  m <- get_mgr;;
  if m_initialized m then ret tt else
  ld_initialize;;;
  sch <- gets ld_getItemSchema;;
  (* [this.loader.getItemSchema() || this.config.itemTemplate || null] *)
  let tmpl := match sch with Some t => Some t | None => cfg_itemTemplate cfg end in
  m1 <- get_mgr;;
  put_mgr (mkMgr (m_items m1) (m_initialized m1) tmpl);;;
  (if inMemory cfg then l <- ld_getItems;; set_items l else ret tt);;;
  m2 <- get_mgr;;
  put_mgr (mkMgr (m_items m2) true (m_itemTemplate m2)).

Definition getFront : M W jsv :=
  if inMemory cfg then
    m <- get_mgr;;
    xs <- read (m_items m);;
    match xs with
    | [] => ret JNull
    | x :: rest => write (m_items m) rest;;; ret (or_null x)   (* shift() || null *)
    end
  else ld_removeItemFront.

Definition getBack : M W jsv :=
  if inMemory cfg then
    m <- get_mgr;;
    xs <- read (m_items m);;
    match xs with
    | [] => ret JNull
    | _ => write (m_items m) (removelast xs);;; ret (or_null (last xs JNull))  (* pop() || null *)
    end
  else ld_removeItemBack.

Definition schema_error : string := "Item does not match the required schema".

Definition pushFront (item : jsv) : M W unit :=
  m <- get_mgr;;
  if negb (validateItem (m_itemTemplate m) item) then throw schema_error else
  if inMemory cfg then
    xs <- read (m_items m);; write (m_items m) (item :: xs)
  else ld_addItemFront item.

Definition pushBack (item : jsv) : M W unit :=
  m <- get_mgr;;
  if negb (validateItem (m_itemTemplate m) item) then throw schema_error else
  if inMemory cfg then
    xs <- read (m_items m);; write (m_items m) (xs ++ [item])%list
  else ld_addItemBack item.

Definition not_found (templateId : string) : string :=
  "Template " ++ templateId ++ " not found".

Definition replaceFromTemplate (templateId : string) : M W unit :=
  b <- ld_hasTemplate templateId;;
  if negb b then throw (not_found templateId) else
  newItems <- ld_loadTemplate templateId;;
  if inMemory cfg then set_items newItems
  else ld_saveItems newItems.

Definition addFrontFromTemplate (templateId : string) : M W unit :=
  b <- ld_hasTemplate templateId;;
  if negb b then throw (not_found templateId) else
  newItems <- ld_loadTemplate templateId;;
  if inMemory cfg then
    m <- get_mgr;;
    nx <- read newItems;;
    xs <- read (m_items m);;
    write (m_items m) (nx ++ xs)%list            (* items.unshift(...newItems) *)
  else
    currentItems <- ld_getItems;;
    nx <- read newItems;;
    cur <- read currentItems;;
    combined <- alloc (nx ++ cur)%list;;         (* [...newItems, ...currentItems] *)
    ld_saveItems combined.

Definition addBackFromTemplate (templateId : string) : M W unit :=
  b <- ld_hasTemplate templateId;;
  if negb b then throw (not_found templateId) else
  newItems <- ld_loadTemplate templateId;;
  if inMemory cfg then
    m <- get_mgr;;
    nx <- read newItems;;
    xs <- read (m_items m);;
    write (m_items m) (xs ++ nx)%list            (* items.push(...newItems) *)
  else
    currentItems <- ld_getItems;;
    nx <- read newItems;;
    cur <- read currentItems;;
    combined <- alloc (cur ++ nx)%list;;
    ld_saveItems combined.

(** The queue's current content as a caller sees it: the cached array in
    cached mode, what the loader's [getItems] reads in pass-through mode. *)
Definition contents (w : W) : option (list jsv) :=
  if inMemory cfg then Some (hread (w_heap w) (m_items (w_mgr w)))
  else match ld_getItems w with
       | (Ok l, w') => Some (hread (w_heap w') l)
       | (Err _, _) => None
       end.

End Manager.

(* ------------------------------------------------------------------ *)
(** ** [MemoryLoader] (memory-loader.ts) *)

Record mem_state := mkMem { ml_initialized : bool; ml_items : loc }.

Section MemoryLoader.
Variable cfg : config.

Local Abbreviation MW := (world mem_state unit).

Definition mem_initialize : M MW unit :=
  s <- get_loader;;
  if ml_initialized s then ret tt else put_loader (mkMem true (ml_items s)).

(** [return [...this.items]] *)
Definition mem_getItems : M MW loc :=
  s <- get_loader;; xs <- read (ml_items s);; alloc xs.

(** [this.items = []; return this.items;] *)
Definition mem_loadTemplate (templateId : string) : M MW loc :=
  n <- alloc [];;
  s <- get_loader;;
  put_loader (mkMem (ml_initialized s) n);;;
  ret n.

Definition mem_hasTemplate (templateId : string) : M MW bool := ret true.

Definition mem_getItemSchema (w : MW) : option template := cfg_itemTemplate cfg.

(** [this.items = [...items]] *)
Definition mem_saveItems (items : loc) : M MW unit :=
  xs <- read items;;
  n <- alloc xs;;
  s <- get_loader;;
  put_loader (mkMem (ml_initialized s) n).

Definition mem_addItemFront (item : jsv) : M MW unit :=
  s <- get_loader;; xs <- read (ml_items s);; write (ml_items s) (item :: xs).

Definition mem_addItemBack (item : jsv) : M MW unit :=
  s <- get_loader;; xs <- read (ml_items s);; write (ml_items s) (xs ++ [item])%list.

Definition mem_removeItemFront : M MW jsv :=
  s <- get_loader;;
  xs <- read (ml_items s);;
  match xs with
  | [] => ret JNull
  | y :: rest => write (ml_items s) rest;;; ret (or_null y)
  end.

Definition mem_removeItemBack : M MW jsv :=
  s <- get_loader;;
  xs <- read (ml_items s);;
  match xs with
  | [] => ret JNull
  | _ => write (ml_items s) (removelast xs);;; ret (or_null (last xs JNull))
  end.

#[global] Instance MemoryLoader : QueueLoader mem_state unit := {
  ld_initialize := mem_initialize;
  ld_getItems := mem_getItems;
  ld_loadTemplate := mem_loadTemplate;
  ld_hasTemplate := mem_hasTemplate;
  ld_getItemSchema := mem_getItemSchema;
  ld_saveItems := mem_saveItems;
  ld_addItemFront := mem_addItemFront;
  ld_addItemBack := mem_addItemBack;
  ld_removeItemFront := mem_removeItemFront;
  ld_removeItemBack := mem_removeItemBack
}.

(** The two empty arrays allocated by [new MemoryLoader(config)] and
    [new DefaultQueueManager(config, loader)]. *)
Definition memory_world0 : MW :=
  let (l1, h1) := halloc empty_heap [] in
  let (l2, h2) := halloc h1 [] in
  mkWorld h2 [] (mkMem false l1) (mkMgr l2 false None).

(** [createLoader]: the constructor throws unless [config.put]. *)
Definition new_memory_world : outcome MW :=
  if negb (put cfg) then Err "MemoryLoader requires config.put to be true"
  else Ok memory_world0.

End MemoryLoader.

(* ------------------------------------------------------------------ *)
(** ** File loaders: [JsonLoader] and [CsvLoader]

    json-loader.ts and csv-loader.ts are the same class up to the file
    extension, the default file name and the private [loadXFile] /
    [saveXFile] pair; they are written once here, over the content model
    [F] of one file, its decoder ([None]: the load rejects) and its encoder
    ([None]: the save throws). *)

Record fl_state := mkFl {
  fl_initialized : bool;
  fl_itemSchema : option template;
  fl_cachedItems : loc;
  fl_activeFile : option string
}.

(** [Object.entries(v)] *)
Definition own_entries (v : jsv) : list (string * jsv) :=
  match v with
  | JObj kvs => kvs
  | JArr xs => combine (map string_of_nat (seq 0 (length xs))) xs
  | JStr s => map (fun i => (string_of_nat i,
                             match String.get i s with
                             | Some c => JStr (String c EmptyString)
                             | None => JNull end))
                  (seq 0 (String.length s))
  | _ => []
  end.

(** [inferSchema]: [schema[key] = typeof value] for every entry; the keys
    of [Object.entries] are distinct, and a string assigned to
    [__proto__] is swallowed by the inherited accessor. *)
Definition inferSchema (item : jsv) : template :=
  if String.eqb (typeof item) "object" && negb (is_null item)
  then map (fun '(k, v) => (k, typeof v))
           (filter (fun kv => negb (String.eqb (fst kv) "__proto__")) (own_entries item))
  else [].

Section FileLoader.
Variable F : Type.
Variables ext default_file : string.
Variable decode : F -> option (list jsv).
Variable encode : list jsv -> option F.
Variable cfg : config.

Local Abbreviation FW := (world fl_state F).

Definition fl_set_active (a : option string) : M FW unit :=
  s <- get_loader;;
  put_loader (mkFl (fl_initialized s) (fl_itemSchema s) (fl_cachedItems s) a).
Definition fl_set_cached (l : loc) : M FW unit :=
  s <- get_loader;;
  put_loader (mkFl (fl_initialized s) (fl_itemSchema s) l (fl_activeFile s)).
Definition fl_set_schema (t : option template) : M FW unit :=
  s <- get_loader;;
  put_loader (mkFl (fl_initialized s) t (fl_cachedItems s) (fl_activeFile s)).
Definition fl_set_initialized : M FW unit :=
  s <- get_loader;;
  put_loader (mkFl true (fl_itemSchema s) (fl_cachedItems s) (fl_activeFile s)).

(** [fs.readdir(TEMPLATES_DIR)] *)
Definition readdir : M FW (list string) := gets (fun w => map fst (w_fs w)).

(** [getFilenameFromTemplateId] *)
Definition filename_of (templateId : string) : string :=
  if ends_with ext templateId then templateId else templateId ++ ext.

(** The format's name in the error messages: [JSON] for [.json], [CSV]
    for [.csv]. *)
Definition format_name : string := upper (substring 1 (String.length ext - 1) ext).

(** [loadJsonFile] / [loadCsvFile]: a fresh array of the decoded items.
    The file system is the templates directory, by entry name: a file name
    is looked up as it is, which is what [path.join(TEMPLATES_DIR, name)]
    resolves to for a name without [/]. *)
Definition loadFile (filename : string) : M FW loc :=
  fs <- gets w_fs;;
  match fs_lookup filename fs with
  | None => throw ("Failed to load " ++ format_name ++ " file: " ++ filename)
  | Some c =>
      match decode c with
      | None => throw ("Failed to load " ++ format_name ++ " file: " ++ filename)
      | Some xs => alloc xs
      end
  end.

(** [saveJsonFile] / [saveCsvFile]: rewrite the whole file. *)
Definition saveFile (filename : string) (data : loc) : M FW unit :=
  xs <- read data;;
  match encode xs with
  | None => throw ("Failed to save " ++ format_name ++ " file: " ++ filename)
  | Some c => modify (fun w => set_fs (fs_write filename c (w_fs w)) w)
  end.

Definition fl_initialize : M FW unit :=
  s <- get_loader;;
  if fl_initialized s then ret tt else
  catch
    (files <- readdir;;
     match filter (ends_with ext) files with
     | [] => ret tt
     | defaultFile :: _ =>
         fl_set_active (Some defaultFile);;;
         items <- loadFile defaultFile;;
         xs <- read items;;
         (match xs, cfg_itemTemplate cfg with
          | x0 :: _, None => fl_set_schema (Some (inferSchema x0))
          | _, _ => ret tt
          end);;;
         (if inMemory cfg then fl_set_cached items else ret tt)
     end)
    (fun _ => ret tt);;;
  (match cfg_itemTemplate cfg with
   | Some t => fl_set_schema (Some t)
   | None => ret tt
   end);;;
  fl_set_initialized.

Definition fl_getItems : M FW loc :=
  if inMemory cfg then
    s <- get_loader;; xs <- read (fl_cachedItems s);; alloc xs
  else
    s <- get_loader;;
    match fl_activeFile s with
    | None =>
        catch
          (files <- readdir;;
           match filter (ends_with ext) files with
           | [] => alloc []
           | f :: _ => fl_set_active (Some f);;; loadFile f
           end)
          (fun _ => alloc [])
    | Some f => loadFile f
    end.

Definition fl_loadTemplate (templateId : string) : M FW loc :=
  let filename := filename_of templateId in
  fl_set_active (Some filename);;;
  catch
    (items <- loadFile filename;;
     (if inMemory cfg then fl_set_cached items else ret tt);;;
     ret items)
    (fun _ => throw ("Failed to load template: " ++ templateId)).

(** [fs.access(path.join(TEMPLATES_DIR, filename))], for a file name
    without [/] (see [loadFile]). *)
Definition fl_hasTemplate (templateId : string) : M FW bool :=
  gets (fun w => match fs_lookup (filename_of templateId) (w_fs w) with
                 | Some _ => true
                 | None => false
                 end).

Definition fl_getItemSchema (w : FW) : option template :=
  fl_itemSchema (w_loader w).

Definition fl_saveItems (items : loc) : M FW unit :=
  if inMemory cfg then
    xs <- read items;; n <- alloc xs;; fl_set_cached n
  else
    s <- get_loader;;
    (match fl_activeFile s with
     | None => fl_set_active (Some default_file)
     | Some _ => ret tt
     end);;;
    s' <- get_loader;;
    match fl_activeFile s' with
    | Some f => saveFile f items
    | None => ret tt
    end.

Definition fl_addItemFront (item : jsv) : M FW unit :=
  if inMemory cfg then
    s <- get_loader;; xs <- read (fl_cachedItems s);;
    write (fl_cachedItems s) (item :: xs)
  else
    items <- fl_getItems;; xs <- read items;;
    write items (item :: xs);;; fl_saveItems items.

Definition fl_addItemBack (item : jsv) : M FW unit :=
  if inMemory cfg then
    s <- get_loader;; xs <- read (fl_cachedItems s);;
    write (fl_cachedItems s) (xs ++ [item])%list
  else
    items <- fl_getItems;; xs <- read items;;
    write items (xs ++ [item])%list;;; fl_saveItems items.

Definition fl_removeItemFront : M FW jsv :=
  if inMemory cfg then
    s <- get_loader;; xs <- read (fl_cachedItems s);;
    match xs with
    | [] => ret JNull
    | y :: rest => write (fl_cachedItems s) rest;;; ret (or_null y)
    end
  else
    items <- fl_getItems;; xs <- read items;;
    match xs with
    | [] => ret JNull
    | y :: rest => write items rest;;; fl_saveItems items;;; ret y
    end.

Definition fl_removeItemBack : M FW jsv :=
  if inMemory cfg then
    s <- get_loader;; xs <- read (fl_cachedItems s);;
    match xs with
    | [] => ret JNull
    | _ => write (fl_cachedItems s) (removelast xs);;; ret (or_null (last xs JNull))
    end
  else
    items <- fl_getItems;; xs <- read items;;
    match xs with
    | [] => ret JNull
    | _ => write items (removelast xs);;; fl_saveItems items;;; ret (last xs JNull)
    end.

Definition FileLoader : QueueLoader fl_state F := {|
  ld_initialize := fl_initialize;
  ld_getItems := fl_getItems;
  ld_loadTemplate := fl_loadTemplate;
  ld_hasTemplate := fl_hasTemplate;
  ld_getItemSchema := fl_getItemSchema;
  ld_saveItems := fl_saveItems;
  ld_addItemFront := fl_addItemFront;
  ld_addItemBack := fl_addItemBack;
  ld_removeItemFront := fl_removeItemFront;
  ld_removeItemBack := fl_removeItemBack
|}.

End FileLoader.

(** *** JSON files

    A JSON file is modelled by what [JSON.parse] makes of it: an array of
    JSON values, or anything else (another JSON value or invalid text).
    [JSON.stringify(data, null, 2)] followed by [JSON.parse] gives back the
    same JSON values, so a save writes the array itself. *)
Inductive json_file : Type :=
| JsonArray (xs : list jsv)
| JsonOther.

Definition json_decode (c : json_file) : option (list jsv) :=
  match c with JsonArray xs => Some xs | JsonOther => None end.

Definition json_encode (xs : list jsv) : option json_file := Some (JsonArray xs).

Definition JsonLoader (cfg : config) : QueueLoader fl_state json_file :=
  FileLoader json_file ".json" "queue.json" json_decode json_encode cfg.

(** *** CSV files

    A CSV file is modelled by its rows of cells: csv-stringify writes each
    row of cell strings (quoting where needed) and csv-parser reads the
    same cells back, the first line as the header row, except that a row
    of one empty cell is written as a blank line, in which csv-parser
    finds no cell at all. *)
Definition csv_file := list (list string).

(** [String(n)] for a decimal in plain notation (the exponent notation
    JavaScript uses from 1e21 up and below 1e-6 is not modelled). *)
Definition num_to_string (m : Z) (e : nat) : string :=
  let a := string_of_Z (Z.abs m) in
  let a := (string_of_list (repeat "0"%char (S e - String.length a))) ++ a in
  let k := String.length a - e in
  (if Z.ltb m 0 then "-" else "")
  ++ substring 0 k a
  ++ (match e with O => "" | _ => "." ++ substring k e a end).

Definition dquote : string := String (ascii_of_nat 34) EmptyString.
Definition backslash : string := String (ascii_of_nat 92) EmptyString.

Fixpoint json_quote_chars (s : string) : string :=
  match s with
  | EmptyString => EmptyString
  | String c r =>
      (if Ascii.eqb c (ascii_of_nat 34) then backslash ++ dquote
       else if Ascii.eqb c (ascii_of_nat 92) then backslash ++ backslash
       else if Ascii.eqb c (ascii_of_nat 10) then backslash ++ "n"
       else String c EmptyString) ++ json_quote_chars r
  end.

Definition json_quote (s : string) : string := dquote ++ json_quote_chars s ++ dquote.

(** [JSON.stringify] of a JSON value (compact; escapes of control
    characters other than newline are not modelled). *)
Fixpoint json_stringify (v : jsv) : string :=
  match v with
  | JNull => "null"
  | JBool b => if b then "true" else "false"
  | JNum m e => num_to_string m e
  | JStr s => json_quote s
  | JArr xs =>
      "[" ++ (fix go (l : list jsv) : string :=
                match l with
                | [] => EmptyString
                | [x] => json_stringify x
                | x :: r => json_stringify x ++ "," ++ go r
                end) xs ++ "]"
  | JObj kvs =>
      "{" ++ (fix go (l : list (string * jsv)) : string :=
                match l with
                | [] => EmptyString
                | [(k, x)] => json_quote k ++ ":" ++ json_stringify x
                | (k, x) :: r => json_quote k ++ ":" ++ json_stringify x ++ "," ++ go r
                end) kvs ++ "}"
  end.

(** csv-stringify's default cast of one cell value ([undefined] is [None]):
    strings as they are, numbers by [String], booleans as ["1"] / [""],
    null and undefined as [""], objects and arrays by [JSON.stringify]. *)
Definition csv_cell (v : option jsv) : string :=
  match v with
  | None | Some JNull => ""
  | Some (JBool b) => if b then "1" else ""
  | Some (JNum m e) => num_to_string m e
  | Some (JStr s) => s
  | Some (JArr _ as x) | Some (JObj _ as x) => json_stringify x
  end.

(** [Object.keys(data[0])]; it throws on [null]. *)
Definition object_keys (v : jsv) : option (list string) :=
  match v with
  | JNull => None
  | _ => Some (map fst (own_entries v))
  end.

(** [item[header]]: [null[header]] throws ([None]); otherwise the own or
    inherited property ([None] inside: [undefined]).  A primitive item is
    given the inherited properties of [Object.prototype] only. *)
Definition item_field (item : jsv) (header : string) : option (option prop_val) :=
  match item with
  | JNull => None
  | _ => Some (js_get item header)
  end.

(** csv-stringify's cast of [item[header]]: a function is rejected ([Formatter
    must return a string ...]), and [__proto__] reads the prototype object,
    cast by [JSON.stringify]. *)
Definition csv_cell_p (p : option prop_val) : option string :=
  match p with
  | None => Some (csv_cell None)
  | Some (PData v) => Some (csv_cell (Some v))
  | Some PFun => None
  | Some (PProto is_arr) => Some (if is_arr then "[]" else "{}")
  end.

(** [headers.map(header => item[header])], cast cell by cell. *)
Fixpoint csv_row (headers : list string) (item : jsv) : option (list string) :=
  match headers with
  | [] => Some []
  | h :: hs =>
      match item_field item h, csv_row hs item with
      | Some p, Some r =>
          match csv_cell_p p with
          | Some c => Some (c :: r)
          | None => None
          end
      | _, _ => None
      end
  end.

Fixpoint csv_rows (headers : list string) (data : list jsv) : option (list (list string)) :=
  match data with
  | [] => Some []
  | item :: rest =>
      match csv_row headers item, csv_rows headers rest with
      | Some r, Some rs => Some (r :: rs)
      | _, _ => None
      end
  end.

(** [saveCsvFile]: an empty file for no data, else the header row of the
    first item's keys followed by one row per item. *)
Definition csv_encode (data : list jsv) : option csv_file :=
  match data with
  | [] => Some []
  | first :: _ =>
      match object_keys first with
      | None => None
      | Some headers =>
          match csv_rows headers data with
          | Some rows => Some (headers :: rows)
          | None => None
          end
      end
  end.

(** The cells csv-parser reads on the line written for a row: none on a
    blank line. *)
Definition csv_line_cells (row : list string) : list string :=
  match row with
  | [""] => []
  | _ => row
  end.

(** [o[k] = s] for a string [s] on a plain object: replace in place or
    append. *)
Fixpoint row_set (kvs : list (string * string)) (k s : string) : list (string * string) :=
  match kvs with
  | [] => [(k, s)]
  | (k', s') :: r => if String.eqb k k' then (k, s) :: r else (k', s') :: row_set r k s
  end.

(** csv-parser's [writeRow]: [cells.reduce((o, cell, index) => ...)] puts
    each cell under the header of its column, or under [_<index>] past the
    last header; a string assigned to [__proto__] is swallowed by the
    inherited accessor. *)
Fixpoint csv_parser_row (headers cells : list string) (index : nat)
    (o : list (string * string)) : list (string * string) :=
  match cells with
  | [] => o
  | cell :: r =>
      let header := match nth_error headers index with
                    | Some h => h
                    | None => "_" ++ string_of_nat index
                    end in
      csv_parser_row headers r (S index)
        (if String.eqb header "__proto__" then o else row_set o header cell)
  end.

(** [loadCsvFile]: csv-parser's row objects, each through [convertTypes]. *)
Definition csv_decode (rows : csv_file) : option (list jsv) :=
  match rows with
  | [] => Some []
  | headers :: data =>
      Some (map (fun row => convertTypes
                   (csv_parser_row (csv_line_cells headers) (csv_line_cells row) 0 [])) data)
  end.

Definition CsvLoader (cfg : config) : QueueLoader fl_state csv_file :=
  FileLoader csv_file ".csv" "queue.csv" csv_decode csv_encode cfg.


(* ------------------------------------------------------------------ *)
(** ** [GoogleSheetLoader] (googlesheet-loader.ts)

    The spreadsheet is modelled by its sheets, by title, each holding the
    rows of cells last written to it.  [values.update] with [RAW] input
    stores the cell strings as they are; [values.get] returns them without
    the trailing empty cells of each row and the trailing empty rows, and
    fails for a title that names no sheet.  [values.clear] empties a sheet
    and [batchUpdate] with [addSheet] adds one, failing for a title in
    use. *)
Definition sheet := list (list string).

Record gs_state := mkGs {
  gs_initialized : bool;
  gs_itemSchema : option template;
  gs_cachedItems : loc;
  gs_api : bool;                   (* [this.sheets] and [this.spreadsheetId] set *)
  gs_availableSheets : list string;
  gs_activeSheet : option string
}.

(** A row without its trailing empty cells. *)
Fixpoint trim_cells (row : list string) : list string :=
  match row with
  | [] => []
  | c :: r =>
      match trim_cells r with
      | [] => if String.eqb c "" then [] else [c]
      | r' => c :: r'
      end
  end.

(** [values.get] of a sheet: [response.data.values], trailing empty cells
    and rows left out. *)
Fixpoint values_get (rows : sheet) : list (list string) :=
  match rows with
  | [] => []
  | row :: r =>
      match values_get r with
      | [] => match trim_cells row with [] => [] | row' => [row'] end
      | r' => trim_cells row :: r'
      end
  end.

(** The cell [writeSheet] makes of [item[header]]: [''] for [null] and
    [undefined], [JSON.stringify] for an object, [String(value)] otherwise
    (an inherited method prints as its native source). *)
Definition sheet_value (item : jsv) (header : string) (p : option prop_val) : string :=
  match p with
  | None | Some (PData JNull) => ""
  | Some (PData (JBool b)) => if b then "true" else "false"
  | Some (PData (JNum m e)) => num_to_string m e
  | Some (PData (JStr s)) => s
  | Some (PData (JArr _ as x)) | Some (PData (JObj _ as x)) => json_stringify x
  | Some PFun =>
      "function "
      ++ (if String.eqb header "constructor"
          then match item with JArr _ => "Array" | _ => "Object" end
          else header)
      ++ "() { [native code] }"
  | Some (PProto is_arr) => if is_arr then "[]" else "{}"
  end.

(** [headers.map(header => ...)] of [writeSheet] for one item. *)
Fixpoint sheet_row (headers : list string) (item : jsv) : option (list string) :=
  match headers with
  | [] => Some []
  | h :: hs =>
      match item_field item h, sheet_row hs item with
      | Some p, Some r => Some (sheet_value item h p :: r)
      | _, _ => None
      end
  end.

Fixpoint sheet_rows (headers : list string) (data : list jsv) : option (list (list string)) :=
  match data with
  | [] => Some []
  | item :: rest =>
      match sheet_row headers item, sheet_rows headers rest with
      | Some r, Some rs => Some (r :: rs)
      | _, _ => None
      end
  end.

(** [this.activeSheet] when it is truthy. *)
Definition active_sheet (s : gs_state) : option string :=
  match gs_activeSheet s with
  | Some a => if String.eqb a "" then None else Some a
  | None => None
  end.

Section GoogleSheetLoader.
(** Whether credentials.json is there and parses, names a spreadsheet, the
    authentication succeeds and [spreadsheets.get] answers. *)
Variable credentials_ok : bool.
Variable cfg : config.

Local Abbreviation GW := (world gs_state sheet).

Definition gs_update (f : gs_state -> gs_state) : M GW unit :=
  s <- get_loader;; put_loader (f s).
Definition gs_set_active (a : option string) : M GW unit :=
  gs_update (fun s => mkGs (gs_initialized s) (gs_itemSchema s) (gs_cachedItems s)
                           (gs_api s) (gs_availableSheets s) a).
Definition gs_set_cached (l : loc) : M GW unit :=
  gs_update (fun s => mkGs (gs_initialized s) (gs_itemSchema s) l
                           (gs_api s) (gs_availableSheets s) (gs_activeSheet s)).
Definition gs_set_schema (t : option template) : M GW unit :=
  gs_update (fun s => mkGs (gs_initialized s) t (gs_cachedItems s)
                           (gs_api s) (gs_availableSheets s) (gs_activeSheet s)).
Definition gs_set_api : M GW unit :=
  gs_update (fun s => mkGs (gs_initialized s) (gs_itemSchema s) (gs_cachedItems s)
                           true (gs_availableSheets s) (gs_activeSheet s)).
Definition gs_set_available (titles : list string) : M GW unit :=
  gs_update (fun s => mkGs (gs_initialized s) (gs_itemSchema s) (gs_cachedItems s)
                           (gs_api s) titles (gs_activeSheet s)).
Definition gs_set_initialized : M GW unit :=
  gs_update (fun s => mkGs true (gs_itemSchema s) (gs_cachedItems s)
                           (gs_api s) (gs_availableSheets s) (gs_activeSheet s)).

Definition api_error : string := "Google Sheets API not initialized".

(** [loadSheet]: the first row is the header row. *)
Definition loadSheet (sheetName : string) : M GW loc :=
  s <- get_loader;;
  if negb (gs_api s) then throw api_error else
  ss <- gets w_fs;;
  match fs_lookup sheetName ss with
  | None => throw ("Failed to load sheet: " ++ sheetName)
  | Some rows =>
      match values_get rows with
      | [] => alloc []
      | headers :: data => alloc (map (sheet_row_to_item headers) data)
      end
  end.

(** [createSheet] *)
Definition createSheet (sheetName : string) : M GW unit :=
  s <- get_loader;;
  if negb (gs_api s) then throw api_error else
  ss <- gets w_fs;;
  match fs_lookup sheetName ss with
  | Some _ => throw ("Failed to create sheet: " ++ sheetName)
  | None =>
      modify (fun w => set_fs (fs_write sheetName [] (w_fs w)) w);;;
      s' <- get_loader;;
      if existsb (String.eqb sheetName) (gs_availableSheets s') then ret tt
      else gs_set_available (gs_availableSheets s' ++ [sheetName])%list
  end.

(** [writeSheet]: clear the sheet, then write the header row of the first
    item's keys and one row per item. *)
Definition writeSheet (sheetName : string) (data : loc) : M GW unit :=
  s <- get_loader;;
  if negb (gs_api s) then throw api_error else
  catch
    (ss <- gets w_fs;;
     match fs_lookup sheetName ss with
     | None => throw "values.clear: no such sheet"
     | Some _ =>
         modify (fun w => set_fs (fs_write sheetName [] (w_fs w)) w);;;
         xs <- read data;;
         match xs with
         | [] => ret tt
         | first :: _ =>
             match object_keys first with
             | None => throw "Object.keys of null"
             | Some headers =>
                 match sheet_rows headers xs with
                 | None => throw "property of null"
                 | Some rows =>
                     modify (fun w => set_fs (fs_write sheetName (headers :: rows) (w_fs w)) w)
                 end
             end
         end
     end)
    (fun _ => throw ("Failed to write sheet: " ++ sheetName)).

Definition gs_initialize : M GW unit :=
  s <- get_loader;;
  if gs_initialized s then ret tt else
  catch
    (if negb credentials_ok then throw "Google Sheet credentials file not found" else
     gs_set_api;;;
     titles <- gets (fun w => filter (fun t => negb (String.eqb t "")) (map fst (w_fs w)));;
     gs_set_available titles;;;
     match titles with
     | [] => ret tt
     | defaultSheet :: _ =>
         gs_set_active (Some defaultSheet);;;
         items <- loadSheet defaultSheet;;
         xs <- read items;;
         (match xs, cfg_itemTemplate cfg with
          | x0 :: _, None => gs_set_schema (Some (inferSchema x0))
          | _, _ => ret tt
          end);;;
         (if inMemory cfg then gs_set_cached items else ret tt)
     end)
    (fun _ => throw "Failed to initialize Google Sheet loader");;;
  (match cfg_itemTemplate cfg with
   | Some t => gs_set_schema (Some t)
   | None => ret tt
   end);;;
  gs_set_initialized.

Definition gs_getItems : M GW loc :=
  if inMemory cfg then
    s <- get_loader;; xs <- read (gs_cachedItems s);; alloc xs
  else
    s <- get_loader;;
    (match active_sheet s, gs_availableSheets s with
     | None, a :: _ => gs_set_active (Some a)
     | _, _ => ret tt
     end);;;
    s' <- get_loader;;
    match active_sheet s' with
    | None => alloc []
    | Some a => catch (loadSheet a) (fun _ => alloc [])
    end.

Definition gs_loadTemplate (templateId : string) : M GW loc :=
  s <- get_loader;;
  if negb (existsb (String.eqb templateId) (gs_availableSheets s))
  then throw ("Sheet " ++ templateId ++ " not found") else
  gs_set_active (Some templateId);;;
  catch
    (items <- loadSheet templateId;;
     (if inMemory cfg then gs_set_cached items else ret tt);;;
     ret items)
    (fun _ => throw ("Failed to load template: " ++ templateId)).

Definition gs_hasTemplate (templateId : string) : M GW bool :=
  gets (fun w => existsb (String.eqb templateId) (gs_availableSheets (w_loader w))).

Definition gs_getItemSchema (w : GW) : option template :=
  gs_itemSchema (w_loader w).

Definition gs_saveItems (items : loc) : M GW unit :=
  if inMemory cfg then
    xs <- read items;; n <- alloc xs;; gs_set_cached n
  else
    s <- get_loader;;
    (match active_sheet s with
     | Some _ => ret tt
     | None =>
         match gs_availableSheets s with
         | a :: _ => gs_set_active (Some a)
         | [] => gs_set_active (Some "Sheet1");;; createSheet "Sheet1"
         end
     end);;;
    s' <- get_loader;;
    match gs_activeSheet s' with
    | Some a => writeSheet a items
    | None => ret tt
    end.

Definition gs_addItemFront (item : jsv) : M GW unit :=
  if inMemory cfg then
    s <- get_loader;; xs <- read (gs_cachedItems s);;
    write (gs_cachedItems s) (item :: xs)
  else
    items <- gs_getItems;; xs <- read items;;
    write items (item :: xs);;; gs_saveItems items.

Definition gs_addItemBack (item : jsv) : M GW unit :=
  if inMemory cfg then
    s <- get_loader;; xs <- read (gs_cachedItems s);;
    write (gs_cachedItems s) (xs ++ [item])%list
  else
    items <- gs_getItems;; xs <- read items;;
    write items (xs ++ [item])%list;;; gs_saveItems items.

Definition gs_removeItemFront : M GW jsv :=
  if inMemory cfg then
    s <- get_loader;; xs <- read (gs_cachedItems s);;
    match xs with
    | [] => ret JNull
    | y :: rest => write (gs_cachedItems s) rest;;; ret (or_null y)
    end
  else
    items <- gs_getItems;; xs <- read items;;
    match xs with
    | [] => ret JNull
    | y :: rest => write items rest;;; gs_saveItems items;;; ret y
    end.

Definition gs_removeItemBack : M GW jsv :=
  if inMemory cfg then
    s <- get_loader;; xs <- read (gs_cachedItems s);;
    match xs with
    | [] => ret JNull
    | _ => write (gs_cachedItems s) (removelast xs);;; ret (or_null (last xs JNull))
    end
  else
    items <- gs_getItems;; xs <- read items;;
    match xs with
    | [] => ret JNull
    | _ => write items (removelast xs);;; gs_saveItems items;;; ret (last xs JNull)
    end.

Definition GoogleSheetLoader : QueueLoader gs_state sheet := {|
  ld_initialize := gs_initialize;
  ld_getItems := gs_getItems;
  ld_loadTemplate := gs_loadTemplate;
  ld_hasTemplate := gs_hasTemplate;
  ld_getItemSchema := gs_getItemSchema;
  ld_saveItems := gs_saveItems;
  ld_addItemFront := gs_addItemFront;
  ld_addItemBack := gs_addItemBack;
  ld_removeItemFront := gs_removeItemFront;
  ld_removeItemBack := gs_removeItemBack
|}.

End GoogleSheetLoader.


(* ------------------------------------------------------------------ *)
(** ** Scenarios *)

(** [new XLoader(config)] and [new DefaultQueueManager(config, loader)]
    over a templates directory [fs]: both allocate their empty arrays. *)
Definition new_file_world {F} (fs : fsys F) : world fl_state F :=
  let (l1, h1) := halloc empty_heap [] in
  let (l2, h2) := halloc h1 [] in
  mkWorld h2 fs (mkFl false None l1 None) (mkMgr l2 false None).

(** [new GoogleSheetLoader(config)] and the manager over a spreadsheet
    [ss]. *)
Definition new_sheet_world (ss : fsys sheet) : world gs_state sheet :=
  let (l1, h1) := halloc empty_heap [] in
  let (l2, h2) := halloc h1 [] in
  mkWorld h2 ss (mkGs false None l1 false [] None) (mkMgr l2 false None).

(** Run a computation from a state and keep the result and final state. *)
Definition run {S A} (m : M S A) (s : S) : outcome A * S := m s.


(* ------------------------------------------------------------------ *)
(** ** The spec's wording, for comparison with the code *)

(** §4.3: "its runtime kind must match the declared kind, where [object]
    requires a non-null structured value and [array] requires a sequence
    value; an unrecognized declared kind name is treated as always
    satisfied".  Kind names are read case-insensitively. *)
Definition kind_spec (ty : string) (v : jsv) : Prop :=
  let t := lower ty in
  if String.eqb t "string" then exists s, v = JStr s
  else if String.eqb t "number" then exists m e, v = JNum m e
  else if String.eqb t "boolean" then exists b, v = JBool b
  else if String.eqb t "object" then (exists xs, v = JArr xs) \/ (exists kvs, v = JObj kvs)
  else if String.eqb t "array" then exists xs, v = JArr xs
  else True.

(** A declared field is present on the item with a value of its kind. *)
Definition field_spec (item : jsv) (f : string * string) : Prop :=
  exists v, own_get item (fst f) = Some v /\ kind_spec (snd f) v.

(** A non-null object or an array. *)
Definition structured (item : jsv) : Prop :=
  match item with JArr _ | JObj _ => True | _ => False end.

(** The property names every object or array inherits. *)
Definition inherited_name (k : string) : Prop :=
  In k object_proto_names \/ In k array_proto_names \/ k = "__proto__".

(** Every spelling of a lower-case word in any letter case. *)
Fixpoint case_variants (w : string) : list string :=
  match w with
  | EmptyString => [EmptyString]
  | String a r =>
      let vs := case_variants r in
      (map (String a) vs ++ map (String (ascii_upper a)) vs)%list
  end.

(** The CSV/Spreadsheet read coercion as the spec words it (§4.1, §8). *)
Definition coerce_spec (cell : string) : jsv :=
  if numeric_regex cell then parseFloat cell
  else if existsb (String.eqb cell) (case_variants "true") then JBool true
  else if existsb (String.eqb cell) (case_variants "false") then JBool false
  else JStr cell.

(** §4.3 [pushFront(item)/pushBack(item)] "on success, insert at the named
    end": the queue as read back is the item followed by the old queue,
    resp. the old queue followed by the item. *)
Definition push_inserts {L F} (LD : QueueLoader L F) (cfg : config)
  (w : world L F) (x : jsv) : Prop :=
  forall xs, contents cfg w = Some xs ->
  exists w1 w2,
    pushFront cfg x w = (Ok tt, w1) /\ contents cfg w1 = Some (x :: xs)
    /\ pushBack cfg x w = (Ok tt, w2) /\ contents cfg w2 = Some (xs ++ [x])%list.

(** §8: "[pushBack(x)] then [getBack()] returns [x]; [pushFront(x)] then
    [getFront()] returns [x]". *)
Definition push_get_returns {L F} (LD : QueueLoader L F) (cfg : config)
  (w : world L F) (x : jsv) : Prop :=
  (exists w1, (pushBack cfg x;;; getBack cfg) w = (Ok x, w1))
  /\ (exists w2, (pushFront cfg x;;; getFront cfg) w = (Ok x, w2)).



(* ------------------------------------------------------------------ *)
(** ** MCP responses (error-handler.ts) *)

(** [{ content: [{ type, text }], isError? }]; [r_isError] is [None] when
    the field is absent. *)
Record response := mkResponse {
  r_content : list (string * string);
  r_isError : option bool
}.

Definition createErrorResponse (message : string) : response :=
  mkResponse [("text", "Error: " ++ message)] (Some true).

Definition createSuccessResponse (content : string) : response :=
  mkResponse [("text", content)] None.

(** [handleUnknownError]: every error the modelled code throws is an
    [Error], so its message is reported. *)
Definition handleUnknownError (message : string) : response :=
  createErrorResponse message.

(** [JSON.stringify(v, null, 2)]: two-space indentation, [": "] after a
    key, empty arrays and objects as [[]] and [{}]. *)
Definition newline : string := String (ascii_of_nat 10) EmptyString.

Fixpoint json_pretty_at (indent : string) (v : jsv) : string :=
  match v with
  | JNull => "null"
  | JBool b => if b then "true" else "false"
  | JNum m e => num_to_string m e
  | JStr s => json_quote s
  | JArr [] => "[]"
  | JArr xs =>
      let ind := indent ++ "  " in
      "[" ++ newline ++ ind
      ++ (fix go (l : list jsv) : string :=
            match l with
            | [] => EmptyString
            | [x] => json_pretty_at ind x
            | x :: r => json_pretty_at ind x ++ "," ++ newline ++ ind ++ go r
            end) xs
      ++ newline ++ indent ++ "]"
  | JObj [] => "{}"
  | JObj kvs =>
      let ind := indent ++ "  " in
      "{" ++ newline ++ ind
      ++ (fix go (l : list (string * jsv)) : string :=
            match l with
            | [] => EmptyString
            | [(k, x)] => json_quote k ++ ": " ++ json_pretty_at ind x
            | (k, x) :: r =>
                json_quote k ++ ": " ++ json_pretty_at ind x ++ "," ++ newline ++ ind ++ go r
            end) kvs
      ++ newline ++ indent ++ "}"
  end.

Definition json_pretty (v : jsv) : string := json_pretty_at "" v.

(* ------------------------------------------------------------------ *)
(** ** The get and push tools (get-tool.ts, push-tool.ts) *)

(** [s || d] for an optional string. *)
Definition or_default (o : option string) (d : string) : string :=
  match o with
  | Some s => if String.eqb s "" then d else s
  | None => d
  end.

(** [GetToolConfig] / [PushToolConfig]: the fields the tools read. *)
Record get_tool_config := mkGetToolConfig {
  gt_directionExposed : option bool;
  gt_default : option string
}.

Record push_tool_config := mkPushToolConfig {
  pt_directionExposed : option bool;
  pt_default : option string
}.

Record get_params := mkGetParams { gp_direction : option string }.

Record push_params := mkPushParams {
  pp_item : option jsv;
  pp_direction : option string
}.

(** The constructor's fields and the [direction] of [GetTool.execute]. *)
Definition get_direction (tc : get_tool_config) (params : get_params) : string :=
  let directionExposed := match gt_directionExposed tc with Some b => b | None => false end in
  let defaultDirection := or_default (gt_default tc) "front" in
  if directionExposed then or_default (gp_direction params) defaultDirection
  else defaultDirection.

(** The same for [PushTool]: [config.directionExposed || true]. *)
Definition push_direction (tc : push_tool_config) (params : push_params) : string :=
  let directionExposed :=
    (match pt_directionExposed tc with Some b => b | None => false end) || true in
  let defaultDirection := or_default (pt_default tc) "back" in
  if directionExposed then or_default (pp_direction params) defaultDirection
  else defaultDirection.

Section Tools.
Context {L F : Type} {LD : QueueLoader L F}.
Variable cfg : config.

Local Abbreviation W := (world L F).

(** [GetTool.execute] *)
Definition get_execute (tc : get_tool_config) (params : get_params) : M W response :=
  catch
    (let direction := get_direction tc params in
     item <- (if String.eqb direction "front" then getFront cfg else getBack cfg);;
     if is_null item then ret (createSuccessResponse "Queue is empty")
     else ret (createSuccessResponse (json_pretty item)))
    (fun e => ret (handleUnknownError e)).

(** [PushTool.execute] *)
Definition push_execute (tc : push_tool_config) (params : push_params) : M W response :=
  catch
    (match pp_item params with
     | None => ret (createErrorResponse "Item parameter must be an object")
     | Some item =>
         if negb (truthy item) || negb (String.eqb (typeof item) "object")
         then ret (createErrorResponse "Item parameter must be an object")
         else
           let direction := push_direction tc params in
           m <- get_mgr;;
           if negb (validateItem (m_itemTemplate m) item)
           then ret (createErrorResponse "Item does not match the required schema")
           else
             (if String.eqb direction "front" then pushFront cfg item else pushBack cfg item);;;
             ret (createSuccessResponse "Item added to queue")
     end)
    (fun e => ret (handleUnknownError e)).

End Tools.

(* ------------------------------------------------------------------ *)
(** ** Tests of the embedding *)

Example ex_validate1 :
  validateItem (Some [("task", "string"); ("done", "boolean")])
    (JObj [("task", JStr "x"); ("done", JBool true)]) = true.
Proof. reflexivity. Qed.

Example ex_idx : array_index "12" = Some 12 /\ array_index "012" = None.
Proof. split; reflexivity. Qed.

Example ex_cell :
  convert_cell "42" = JNum 42 0 /\ convert_cell "-1.50" = JNum (-15) 1
  /\ convert_cell "TrUe" = JBool true /\ convert_cell "1." = JStr "1."
  /\ convert_cell "" = JStr "".
Proof. repeat split; reflexivity. Qed.

Example ex_num : num_to_string (-15) 1 = "-1.5" /\ num_to_string 5 2 = "0.05"
  /\ num_to_string 42 0 = "42" /\ string_of_nat 107 = "107".
Proof. repeat split; reflexivity. Qed.

Example ex_json : json_stringify (JObj [("a", JArr [JNum 1 0; JStr "x"])])
  = "{" ++ dquote ++ "a" ++ dquote ++ ":[1," ++ dquote ++ "x" ++ dquote ++ "]}".
Proof. reflexivity. Qed.
Example ex_validate2 :
  validateItem (Some [("task", "string"); ("done", "boolean")])
    (JObj [("task", JStr "x")]) = false.
Proof. reflexivity. Qed.
Example ex_pretty :
  json_pretty (JObj [("a", JArr [JNum 1 0; JArr []]); ("b", JObj [])])
  = "{" ++ newline ++ "  " ++ dquote ++ "a" ++ dquote ++ ": [" ++ newline
    ++ "    1," ++ newline ++ "    []" ++ newline ++ "  ]," ++ newline
    ++ "  " ++ dquote ++ "b" ++ dquote ++ ": {}" ++ newline ++ "}".
Proof. reflexivity. Qed.
Example ex_son : string_of_nat 107 = "107".
Proof. reflexivity. Qed.
Example ex_csv :
  csv_encode [JObj [("a", JNum 1 0); ("b", JStr "x")]]
  = Some [["a"; "b"]; ["1"; "x"]].
Proof. reflexivity. Qed.

(* ------------------------------------------------------------------ *)
(** * Properties *)

(** ** Item validation *)

Lemma kind_ok_data (ty : string) (v : jsv) :
  kind_ok ty (PData v) = true <-> kind_spec ty v.
Proof.
  unfold kind_ok, kind_spec.
  destruct (String.eqb (lower ty) "string");
    [|destruct (String.eqb (lower ty) "number");
      [|destruct (String.eqb (lower ty) "boolean");
        [|destruct (String.eqb (lower ty) "object");
          [|destruct (String.eqb (lower ty) "array")]]]];
    (destruct v; simpl; split; intros H;
     first [ discriminate
           | reflexivity
           | exact I
           | destruct H as [? ?]; discriminate
           | destruct H as [? [? ?]]; discriminate
           | destruct H as [[? ?]|[? ?]]; discriminate
           | eauto ]).
Qed.

Lemma js_get_not_inherited (item : jsv) (k : string) :
  ~ inherited_name k -> js_get item k = option_map PData (own_get item k).
Proof.
  intros Hk. unfold js_get.
  destruct (own_get item k); [reflexivity|].
  destruct (String.eqb_spec k "__proto__") as [E|_].
  { exfalso. apply Hk. right; right; exact E. }
  unfold inherited.
  destruct (existsb (String.eqb k) object_proto_names) eqn:E1.
  { exfalso. apply Hk. left. apply existsb_exists in E1.
    destruct E1 as [x [Hx Ex]]. apply String.eqb_eq in Ex. subst. exact Hx. }
  rewrite orb_false_l.
  destruct item; cbn -[existsb]; try reflexivity.
  destruct (existsb (String.eqb k) array_proto_names) eqn:E2; [|reflexivity].
  exfalso. apply Hk. right; left. apply existsb_exists in E2.
  destruct E2 as [x [Hx Ex]]. apply String.eqb_eq in Ex. subst. exact Hx.
Qed.

Lemma check_fields_spec (t : template) (item : jsv) :
  (forall f, In f t -> ~ inherited_name (fst f)) ->
  check_fields t item = true <-> Forall (field_spec item) t.
Proof.
  induction t as [|[k ty] r IH]; intros Hn; simpl.
  - split; auto.
  - rewrite js_get_not_inherited by (apply (Hn (k, ty)); left; reflexivity).
    assert (IH' := IH (fun f Hf => Hn f (or_intror Hf))).
    destruct (own_get item k) as [v|] eqn:Eg; simpl.
    + destruct (kind_ok ty (PData v)) eqn:Ek.
      * rewrite IH'. split.
        -- intros H. constructor; [|exact H].
           exists v. split; [exact Eg|]. apply kind_ok_data; exact Ek.
        -- intros H. inversion H; assumption.
      * split; [discriminate|]. intros H. inversion H as [|? ? Hf _]; subst.
        destruct Hf as [v' [Eg' Hk]]. simpl in Eg'. rewrite Eg in Eg'.
        injection Eg' as <-. simpl in Hk. apply kind_ok_data in Hk. congruence.
    + split; [discriminate|]. intros H. inversion H as [|? ? Hf _]; subst.
      destruct Hf as [v' [Eg' _]]. simpl in Eg'. congruence.
Qed.

(** C2, as stated: the claim's right-hand side holds vacuously for the
    empty template, yet [validateItem] rejects the number [5], because it
    first requires the item to be a non-null object. *)
Lemma C2_validateItem_cex :
  ~ (validateItem (Some []) (JNum 5 0) = true
     <-> Forall (field_spec (JNum 5 0)) []).
Proof.
  simpl. intros [_ H]. discriminate (H (Forall_nil _)).
Qed.

(** ** C2 (amended)
    With no template every item is valid.  With a template whose field
    names are not inherited built-in property names, [validateItem] is true
    exactly when the item is a non-null object or an array and every
    declared field is an own field of the item whose value has the declared
    kind ([object]: a non-null object or array, [array]: an array, an
    unrecognized kind: anything); other fields of the item are not looked
    at. *)
Theorem validateItem_correct (t : template) (item : jsv) :
  (forall f, In f t -> ~ inherited_name (fst f)) ->
  validateItem None item = true
  /\ (validateItem (Some t) item = true
      <-> structured item /\ Forall (field_spec item) t).
Proof.
  intros Hn. split; [reflexivity|].
  unfold validateItem.
  destruct item; simpl.
  1-4: split; [discriminate | intros [[] _]].
  all: rewrite (check_fields_spec _ _ Hn); split.
  all: first [intros H; split; [exact I | exact H] | intros [_ H]; exact H].
Qed.

Lemma validateItem_correct_witness :
  validateItem (Some [("task", "string"); ("done", "boolean")])
    (JObj [("task", JStr "x"); ("done", JBool true); ("extra", JNull)]) = true
  /\ structured (JObj [("task", JStr "x"); ("done", JBool true); ("extra", JNull)]).
Proof.
  assert (H := validateItem_correct [("task", "string"); ("done", "boolean")]
                 (JObj [("task", JStr "x"); ("done", JBool true); ("extra", JNull)])).
  destruct H as [_ H].
  - intros f Hf. simpl in Hf.
    destruct Hf as [<-|[<-|[]]]; unfold inherited_name; simpl; intuition discriminate.
  - split; [reflexivity|]. apply H. reflexivity.
Defined.

(** ** C9
    Under any template, even an empty one, [validateItem] rejects every
    value that is not a non-null object: null, numbers, strings and
    booleans. *)
Theorem validateItem_rejects_primitives (t : template) (item : jsv) :
  item = JNull \/ (exists b, item = JBool b) \/ (exists m e, item = JNum m e)
  \/ (exists s, item = JStr s) ->
  validateItem (Some t) item = false.
Proof.
  intros [->|[[b ->]|[[m [e ->]]|[s ->]]]]; reflexivity.
Qed.

Lemma validateItem_rejects_primitives_witness :
  validateItem (Some [("task", "string")]) (JStr "task") = false.
Proof.
  apply validateItem_rejects_primitives.
  right; right; right. exists "task". reflexivity.
Defined.

(** ** Cell coercion *)

Lemma ascii_lower_cases (c : ascii) :
  c = ascii_lower c \/ c = ascii_upper (ascii_lower c).
Proof.
  destruct c as [[] [] [] [] [] [] [] []]; vm_compute;
    first [left; reflexivity | right; reflexivity].
Qed.

Lemma lower_variants (w s : string) :
  lower s = lower w -> lower w = w -> In s (case_variants w).
Proof.
  revert s. induction w as [|a w IH]; intros s Hs Hw; destruct s as [|c s];
    try discriminate; simpl in *.
  - left; reflexivity.
  - injection Hs as Hc Hs. injection Hw as Ha Hw.
    apply in_or_app.
    destruct (ascii_lower_cases c) as [E|E]; rewrite Hc, Ha in E; subst c.
    + left. apply in_map. apply IH; [exact Hs | exact Hw].
    + right. apply in_map. apply IH; [exact Hs | exact Hw].
Qed.

Lemma variants_lower_true (s : string) :
  In s (case_variants "true") -> lower s = "true" /\ numeric_regex s = false.
Proof.
  intros H. repeat (destruct H as [<-|H]; [split; reflexivity|]). destruct H.
Qed.

Lemma variants_lower_false (s : string) :
  In s (case_variants "false") -> lower s = "false" /\ numeric_regex s = false.
Proof.
  intros H. repeat (destruct H as [<-|H]; [split; reflexivity|]). destruct H.
Qed.

Lemma existsb_eqb_in (s : string) (l : list string) :
  existsb (String.eqb s) l = true <-> In s l.
Proof.
  rewrite existsb_exists. split.
  - intros [x [Hx E]]. apply String.eqb_eq in E. subst. exact Hx.
  - intros H. exists s. split; [exact H | apply String.eqb_refl].
Qed.

Lemma convert_cell_coerce_spec (s : string) : convert_cell s = coerce_spec s.
Proof.
  unfold convert_cell, coerce_spec.
  destruct (numeric_regex s) eqn:En; [reflexivity|].
  destruct (String.eqb_spec (lower s) "true") as [Et|Et].
  - assert (Hin : In s (case_variants "true")) by (apply lower_variants; [exact Et|reflexivity]).
    apply existsb_eqb_in in Hin. rewrite Hin. reflexivity.
  - destruct (existsb (String.eqb s) (case_variants "true")) eqn:Ht.
    { apply existsb_eqb_in, variants_lower_true in Ht. tauto. }
    destruct (String.eqb_spec (lower s) "false") as [Ef|Ef].
    + assert (Hin : In s (case_variants "false")) by (apply lower_variants; [exact Ef|reflexivity]).
      apply existsb_eqb_in in Hin. rewrite Hin. reflexivity.
    + destruct (existsb (String.eqb s) (case_variants "false")) eqn:Hf; [|reflexivity].
      apply existsb_eqb_in, variants_lower_false in Hf. tauto.
Qed.

Lemma sheet_cell_coerce_spec (s : string) : sheet_cell s = coerce_spec s.
Proof. rewrite <- convert_cell_coerce_spec. reflexivity. Qed.

Lemma obj_set_fresh (acc : list (string * jsv)) (k : string) (v : jsv) :
  ~ In k (map fst acc) -> obj_set acc k v = (acc ++ [(k, v)])%list.
Proof.
  induction acc as [|[k' v'] r IH]; intros Hk; simpl; [reflexivity|].
  destruct (String.eqb_spec k k') as [E|E].
  - exfalso. apply Hk. left. symmetry. exact E.
  - rewrite IH; [reflexivity|]. intros H. apply Hk. right. exact H.
Qed.

Lemma assoc_in (k : string) (v : jsv) (kvs : list (string * jsv)) :
  NoDup (map fst kvs) -> In (k, v) kvs -> assoc k kvs = Some v.
Proof.
  induction kvs as [|[k' v'] r IH]; intros Hnd Hin; [destruct Hin|].
  inversion Hnd as [|? ? Hk Hnd']; subst. simpl.
  destruct Hin as [E|Hin].
  - injection E as <- <-. rewrite String.eqb_refl. reflexivity.
  - destruct (String.eqb_spec k k') as [<-|_].
    + exfalso. apply Hk. apply (in_map fst) in Hin. exact Hin.
    + apply IH; assumption.
Qed.

Lemma norm_num_not_null (m : Z) (e : nat) : is_null (norm_num m e) = false.
Proof.
  revert m. induction e as [|e IH]; intros m; simpl; [reflexivity|].
  destruct (Z.eqb _ 0); [apply IH | reflexivity].
Qed.

Lemma convert_cell_not_null (s : string) : is_null (convert_cell s) = false.
Proof.
  unfold convert_cell. destruct (numeric_regex s).
  - unfold parseFloat.
    repeat match goal with |- context [match ?p with pair _ _ => _ end] => destruct p end.
    apply norm_num_not_null.
  - destruct (String.eqb (lower s) "true"); [reflexivity|].
    destruct (String.eqb (lower s) "false"); reflexivity.
Qed.

Lemma convertTypes_fold (row : list (string * string)) (acc : list (string * jsv)) :
  NoDup (map fst row) ->
  (forall k, In k (map fst row) -> ~ In k (map fst acc)) ->
  fold_left (fun acc '(k, v) => obj_assign acc k (convert_cell v)) row (acc, true)
  = ((acc ++ map (fun '(k, v) => (k, convert_cell v))
                 (filter (fun kv => negb (String.eqb (fst kv) "__proto__")) row))%list,
     true).
Proof.
  revert acc. induction row as [|[k v] r IH]; intros acc Hnd Hfresh; simpl.
  - rewrite app_nil_r. reflexivity.
  - inversion Hnd as [|? ? Hk Hnd']; subst.
    assert (Hfr : forall k', In k' (map fst r) -> ~ In k' (map fst acc))
      by (intros k' Hk'; apply Hfresh; right; exact Hk').
    destruct (String.eqb k "__proto__") eqn:E; simpl.
    + rewrite convert_cell_not_null. simpl. apply IH; assumption.
    + rewrite obj_set_fresh by (apply Hfresh; left; reflexivity).
      rewrite IH; [rewrite <- app_assoc; reflexivity | exact Hnd' |].
      intros k' Hk' Hin. rewrite map_app, in_app_iff in Hin. destruct Hin as [Hin|Hin].
      * apply (Hfr k'); assumption.
      * simpl in Hin. destruct Hin as [<-|[]]. contradiction.
Qed.

Lemma convertTypes_map (row : list (string * string)) :
  NoDup (map fst row) ->
  convertTypes row
  = JObj (map (fun '(k, v) => (k, convert_cell v))
              (filter (fun kv => negb (String.eqb (fst kv) "__proto__")) row)).
Proof.
  intros Hnd. unfold convertTypes. rewrite convertTypes_fold; [reflexivity | exact Hnd |].
  intros k _ [].
Qed.

Lemma assoc_obj_set_same (kvs : list (string * jsv)) (k : string) (v : jsv) :
  assoc k (obj_set kvs k v) = Some v.
Proof.
  induction kvs as [|[k' v'] r IH]; simpl; [rewrite String.eqb_refl; reflexivity|].
  destruct (String.eqb k k') eqn:E; simpl;
    [rewrite String.eqb_refl; reflexivity | rewrite E; exact IH].
Qed.

Lemma assoc_obj_set_other (kvs : list (string * jsv)) (k k' : string) (v : jsv) :
  k <> k' -> assoc k (obj_set kvs k' v) = assoc k kvs.
Proof.
  intros Hne. induction kvs as [|[k1 v1] r IH]; simpl.
  - apply String.eqb_neq in Hne. rewrite Hne. reflexivity.
  - destruct (String.eqb k' k1) eqn:E; simpl.
    + apply String.eqb_eq in E. subst k1. apply String.eqb_neq in Hne. rewrite Hne.
      reflexivity.
    + destruct (String.eqb k k1); [reflexivity | exact IH].
Qed.

Lemma assoc_obj_assign_other (o : list (string * jsv) * bool) (k k' : string) (v : jsv) :
  k <> k' -> assoc k (fst (obj_assign o k' v)) = assoc k (fst o).
Proof.
  intros Hne. destruct o as [kvs p]. unfold obj_assign.
  destruct (p && String.eqb k' "__proto__"); simpl; [reflexivity|].
  apply assoc_obj_set_other. exact Hne.
Qed.

Lemma sheet_fold_index (row headers : list string) (o : list (string * jsv) * bool) (i : nat) :
  snd (fold_left (sheet_step row) headers (o, i)) = i + length headers.
Proof.
  revert o i. induction headers as [|h hs IH]; intros o i; simpl; [lia|].
  rewrite IH. lia.
Qed.

Lemma sheet_fold_other (row headers : list string) (o : list (string * jsv) * bool)
    (i : nat) (k : string) :
  ~ In k headers ->
  assoc k (fst (fst (fold_left (sheet_step row) headers (o, i)))) = assoc k (fst o).
Proof.
  revert o i. induction headers as [|h hs IH]; intros o i Hk; simpl; [reflexivity|].
  rewrite IH by (intros H; apply Hk; right; exact H).
  apply assoc_obj_assign_other. intros E. apply Hk. left. symmetry. exact E.
Qed.

Lemma sheet_fold_proto (row headers : list string) (o : list (string * jsv) * bool) (i : nat) :
  ~ In "__proto__" headers ->
  snd (fst (fold_left (sheet_step row) headers (o, i))) = snd o.
Proof.
  revert o i. induction headers as [|h hs IH]; intros o i Hk; simpl; [reflexivity|].
  rewrite IH by (intros H; apply Hk; right; exact H).
  destruct o as [kvs p]. unfold obj_assign.
  assert (E : String.eqb h "__proto__" = false).
  { apply String.eqb_neq. intros E. apply Hk. left. exact E. }
  rewrite E, andb_false_r. reflexivity.
Qed.

Lemma sheet_row_field (headers row : list string) (j : nat) (h cell : string) :
  NoDup headers -> nth_error headers j = Some h -> nth_error row j = Some cell ->
  own_get (sheet_row_to_item headers row) h
  = if String.eqb h "__proto__" then None else Some (sheet_cell cell).
Proof.
  intros Hnd Hh Hc.
  destruct (nth_error_split headers j Hh) as [pre [post [Eh Hlen]]]. subst headers.
  pose proof (NoDup_remove_2 _ _ _ Hnd) as Hn.
  assert (Hpre : ~ In h pre) by (intros H; apply Hn; apply in_or_app; left; exact H).
  assert (Hpost : ~ In h post) by (intros H; apply Hn; apply in_or_app; right; exact H).
  unfold sheet_row_to_item, own_get. rewrite fold_left_app. cbn [fold_left].
  pose proof (sheet_fold_index row pre ([], true) 0) as Hi.
  pose proof (sheet_fold_other row pre ([], true) 0 h Hpre) as Ho.
  destruct (fold_left (sheet_step row) pre (([], true), 0)) as [[kvs1 p1] i1] eqn:Epre.
  cbn [snd fst] in Hi, Ho. rewrite Hlen in Hi. simpl in Hi. subst i1.
  cbn [sheet_step]. rewrite Hc.
  rewrite sheet_fold_other by exact Hpost.
  destruct (String.eqb h "__proto__") eqn:E.
  - apply String.eqb_eq in E. subst h.
    pose proof (sheet_fold_proto row pre ([], true) 0 Hpre) as Hp.
    rewrite Epre in Hp. cbn [snd fst] in Hp. subst p1.
    unfold obj_assign. simpl. exact Ho.
  - unfold obj_assign. rewrite E, andb_false_r. simpl. apply assoc_obj_set_same.
Qed.

(** ** C8
    On read, the CSV loader ([convertTypes]) and the Spreadsheet loader
    ([loadSheet]) turn every string cell into [coerce_spec] of it: a cell
    matching [/^-?\d+(\.\d+)?$/] becomes its number, any letter-case
    spelling of [true] / [false] the boolean, any other cell stays the
    string; a CSV row and a sheet row are coerced cell by cell, each under
    its column's name.  A column named [__proto__] gives no field: the
    assignment of its coerced value reaches the accessor every object
    inherits. *)
Theorem read_coercion :
  (forall cell, convert_cell cell = coerce_spec cell /\ sheet_cell cell = coerce_spec cell)
  /\ (forall row : list (string * string), NoDup (map fst row) ->
      convertTypes row
      = JObj (map (fun '(k, v) => (k, coerce_spec v))
                  (filter (fun kv => negb (String.eqb (fst kv) "__proto__")) row)))
  /\ (forall (headers row : list string) (j : nat) (h cell : string),
      NoDup headers -> nth_error headers j = Some h -> nth_error row j = Some cell ->
      own_get (sheet_row_to_item headers row) h
      = if String.eqb h "__proto__" then None else Some (coerce_spec cell)).
Proof.
  split; [|split].
  - intros cell. split; [apply convert_cell_coerce_spec | apply sheet_cell_coerce_spec].
  - intros row Hnd. rewrite convertTypes_map by exact Hnd. f_equal.
    apply map_ext. intros [k v]. rewrite convert_cell_coerce_spec. reflexivity.
  - intros headers row j h cell Hnd Hh Hc.
    rewrite (sheet_row_field headers row j h cell Hnd Hh Hc), sheet_cell_coerce_spec.
    reflexivity.
Qed.

Lemma read_coercion_witness :
  convertTypes [("a", "42"); ("b", "TRUE")]
    = JObj [("a", coerce_spec "42"); ("b", coerce_spec "TRUE")]
  /\ own_get (sheet_row_to_item ["a"; "b"] ["x"; "False"]) "b" = Some (coerce_spec "False")
  /\ own_get (sheet_row_to_item ["__proto__"; "a"] ["1"; "2"]) "__proto__" = None.
Proof.
  split; [|split].
  - rewrite (proj1 (proj2 read_coercion) [("a", "42"); ("b", "TRUE")]); [reflexivity|].
    apply NoDup_cons; [simpl; intros [H|[]]; discriminate | apply NoDup_cons; [intros [] | constructor]].
  - rewrite (proj2 (proj2 read_coercion) ["a"; "b"] ["x"; "False"] 1 "b" "False");
      [reflexivity | | reflexivity | reflexivity].
    apply NoDup_cons; [simpl; intros [H|[]]; discriminate | apply NoDup_cons; [intros [] | constructor]].
  - rewrite (proj2 (proj2 read_coercion) ["__proto__"; "a"] ["1"; "2"] 0 "__proto__" "1");
      [reflexivity | | reflexivity | reflexivity].
    apply NoDup_cons; [simpl; intros [H|[]]; discriminate | apply NoDup_cons; [intros [] | constructor]].
Defined.

(** ** Heap and file-system facts *)

Lemma hread_hwrite (h : heap) (l l' : loc) (xs : list jsv) :
  hread (hwrite h l xs) l' = if Nat.eqb l' l then xs else hread h l'.
Proof. reflexivity. Qed.

Lemma hread_halloc (h : heap) (xs : list jsv) (l' : loc) :
  hread (snd (halloc h xs)) l' = if Nat.eqb l' (hnext h) then xs else hread h l'.
Proof. reflexivity. Qed.

Lemma fs_lookup_write {F} (name : string) (c : F) (fs : fsys F) :
  fs_lookup name (fs_write name c fs) = Some c.
Proof.
  induction fs as [|[n c'] r IH]; simpl.
  - rewrite String.eqb_refl. reflexivity.
  - destruct (String.eqb name n) eqn:E; simpl; rewrite E; [reflexivity | exact IH].
Qed.

(** ** C10
    [MemoryLoader]: [saveItems(xs)] followed by [getItems()] returns an
    array holding the items of [xs], and that array is not the loader's
    own: writing anything into it leaves the loader's items as they were,
    and a further [getItems()] still returns the items of [xs]. *)
Theorem memory_save_get_roundtrip (cfg : config) (w : world mem_state unit) (l : loc) :
  exists r w1,
    (@ld_saveItems _ _ (MemoryLoader cfg) l;;; @ld_getItems _ _ (MemoryLoader cfg)) w = (Ok r, w1)
    /\ hread (w_heap w1) r = hread (w_heap w) l
    /\ r <> ml_items (w_loader w1)
    /\ forall ys : list jsv,
         let w2 := set_heap (hwrite (w_heap w1) r ys) w1 in
         w_loader w2 = w_loader w1
         /\ hread (w_heap w2) (ml_items (w_loader w2)) = hread (w_heap w) l
         /\ exists r2 w3, @ld_getItems _ _ (MemoryLoader cfg) w2 = (Ok r2, w3)
                          /\ hread (w_heap w3) r2 = hread (w_heap w) l.
Proof.
  destruct w as [[c n] fs [i li] m]. eexists _, _. split; [reflexivity|]. simpl.
  rewrite Nat.eqb_refl. simpl.
  assert (Hn : Nat.eqb n (S n) = false) by (apply Nat.eqb_neq; lia).
  split; [reflexivity|]. split; [lia|].
  intros ys. split; [reflexivity|]. simpl. rewrite Hn.
  split; [reflexivity|]. eexists _, _. split; [reflexivity|]. simpl.
  rewrite (Nat.eqb_refl n), Hn. reflexivity.
Qed.

(** ** C5
    On an empty queue [getFront()] and [getBack()] return [null] and do
    not throw: in cached mode over any loader, and in pass-through mode
    over the Memory loader, over the file loaders (JSON and CSV are the
    instances of [FileLoader]) and over the Spreadsheet loader.  "Empty"
    is [contents] = [Some []]: in pass-through mode the backing store
    reads as the empty array. *)
Theorem get_on_empty_is_null :
  (forall (L F : Type) (LD : QueueLoader L F) (cfg : config) (w : world L F),
      inMemory cfg = true -> contents cfg w = Some [] ->
      getFront cfg w = (Ok JNull, w) /\ getBack cfg w = (Ok JNull, w))
  /\ (forall (cfg : config) (w : world mem_state unit),
      inMemory cfg = false -> @contents _ _ (MemoryLoader cfg) cfg w = Some [] ->
      exists w', @getFront _ _ (MemoryLoader cfg) cfg w = (Ok JNull, w')
                 /\ @getBack _ _ (MemoryLoader cfg) cfg w = (Ok JNull, w'))
  /\ (forall (F : Type) (ext df : string) (dec : F -> option (list jsv))
             (enc : list jsv -> option F) (cfg : config) (w : world fl_state F),
      inMemory cfg = false ->
      @contents _ _ (FileLoader F ext df dec enc cfg) cfg w = Some [] ->
      exists w', @getFront _ _ (FileLoader F ext df dec enc cfg) cfg w = (Ok JNull, w')
                 /\ @getBack _ _ (FileLoader F ext df dec enc cfg) cfg w = (Ok JNull, w'))
  /\ (forall (cred : bool) (cfg : config) (w : world gs_state sheet),
      inMemory cfg = false ->
      @contents _ _ (GoogleSheetLoader cred cfg) cfg w = Some [] ->
      exists w', @getFront _ _ (GoogleSheetLoader cred cfg) cfg w = (Ok JNull, w')
                 /\ @getBack _ _ (GoogleSheetLoader cred cfg) cfg w = (Ok JNull, w')).
Proof.
  split; [|split; [|split]].
  - intros L F LD cfg w Hm Hc. unfold contents in Hc. rewrite Hm in Hc.
    injection Hc as E. unfold getFront, getBack. rewrite Hm.
    cbv [bind get_mgr gets read ret]. rewrite E. split; reflexivity.
  - intros cfg w Hm Hc. destruct w as [[c n] fs [i li] m].
    unfold contents in Hc. rewrite Hm in Hc. simpl in Hc.
    rewrite (Nat.eqb_refl n) in Hc. injection Hc as E.
    eexists. unfold getFront, getBack. rewrite Hm. simpl.
    unfold mem_removeItemFront, mem_removeItemBack.
    cbv [bind get_loader read gets ret]. simpl. rewrite E.
    split; reflexivity.
  - intros F ext df dec enc cfg w Hm Hc.
    unfold contents in Hc. rewrite Hm in Hc. cbn [ld_getItems FileLoader] in Hc.
    destruct (fl_getItems F ext dec cfg w) as [[l|e] w'] eqn:G; [|discriminate].
    injection Hc as E. exists w'.
    unfold getFront, getBack. rewrite Hm. cbn [ld_removeItemFront ld_removeItemBack FileLoader].
    unfold fl_removeItemFront, fl_removeItemBack. rewrite Hm.
    split; cbv [bind read gets ret]; rewrite G; rewrite E; reflexivity.
  - intros cred cfg w Hm Hc.
    unfold contents in Hc. rewrite Hm in Hc. cbn [ld_getItems GoogleSheetLoader] in Hc.
    destruct (gs_getItems cfg w) as [[l|e] w'] eqn:G; [|discriminate].
    injection Hc as E. exists w'.
    unfold getFront, getBack. rewrite Hm.
    cbn [ld_removeItemFront ld_removeItemBack GoogleSheetLoader].
    unfold gs_removeItemFront, gs_removeItemBack. rewrite Hm.
    split; cbv [bind read gets ret]; rewrite G; rewrite E; reflexivity.
Qed.

Lemma get_on_empty_is_null_witness :
  (getFront (LD := MemoryLoader (mkConfig true None true)) (mkConfig true None true)
            memory_world0 = (Ok JNull, memory_world0))
  /\ (exists w', getFront (LD := MemoryLoader (mkConfig false None true))
                         (mkConfig false None true) memory_world0 = (Ok JNull, w'))
  /\ (exists w', getBack (LD := JsonLoader (mkConfig false None false))
                        (mkConfig false None false) (new_file_world []) = (Ok JNull, w'))
  /\ (exists w', getFront (LD := GoogleSheetLoader true (mkConfig false None false))
                         (mkConfig false None false)
                         (mkWorld (mkHeap (fun _ => []) 2) [("Q", [["task"]])]
                                  (mkGs true None 0 true ["Q"] (Some "Q")) (mkMgr 1 true None))
                 = (Ok JNull, w')).
Proof.
  split; [|split; [|split]].
  - apply (proj1 get_on_empty_is_null _ _ (MemoryLoader (mkConfig true None true))
             (mkConfig true None true) memory_world0); reflexivity.
  - destruct (proj1 (proj2 get_on_empty_is_null) (mkConfig false None true) memory_world0
                 eq_refl eq_refl) as [w' [H _]].
    exists w'. exact H.
  - destruct (proj1 (proj2 (proj2 get_on_empty_is_null)) json_file ".json" "queue.json"
                 json_decode json_encode (mkConfig false None false) (new_file_world [])
                 eq_refl eq_refl) as [w' [_ H]].
    exists w'. exact H.
  - destruct (proj2 (proj2 (proj2 get_on_empty_is_null)) true (mkConfig false None false)
                 (mkWorld (mkHeap (fun _ => []) 2) [("Q", [["task"]])]
                          (mkGs true None 0 true ["Q"] (Some "Q")) (mkMgr 1 true None))
                 eq_refl ltac:(vm_compute; reflexivity)) as [w' [H _]].
    exists w'. exact H.
Defined.

(** ** File loaders: a save followed by a read *)

Section FileRoundTrip.
Variable F : Type.
Variables ext df : string.
Variable dec : F -> option (list jsv).
Variable enc : list jsv -> option F.
Variable cfg : config.

(** Pass-through mode: [saveItems] writes the active file (the default
    one if none is active yet) and leaves it active, and [getItems] reads
    it back through the decoder. *)
Lemma fl_save_get_passthrough (w : world fl_state F) (l : loc) (c : F) (ys : list jsv) :
  inMemory cfg = false ->
  enc (hread (w_heap w) l) = Some c -> dec c = Some ys ->
  exists w1 r w2, fl_saveItems F ext df enc cfg l w = (Ok tt, w1)
    /\ fl_getItems F ext dec cfg w1 = (Ok r, w2) /\ hread (w_heap w2) r = ys.
Proof.
  intros Hm Henc Hdec. destruct w as [h fs [i sch ca act] m].
  unfold fl_saveItems, fl_getItems. rewrite Hm. simpl in Henc.
  destruct act as [f|];
    (cbv [bind get_loader gets ret fl_set_active put_loader modify saveFile read];
     simpl; rewrite Henc; eexists _, _, _; split; [reflexivity|];
     simpl; unfold loadFile; cbv [bind gets]; simpl; rewrite fs_lookup_write, Hdec;
     split; [reflexivity|]; simpl; rewrite Nat.eqb_refl; reflexivity).
Qed.

(** A format whose decoder reads back what its encoder writes (JSON). *)
Hypothesis enc_dec : forall xs, exists c, enc xs = Some c /\ dec c = Some xs.

Lemma fl_save_ok (w : world fl_state F) (l : loc) :
  inMemory cfg = false -> exists w1, fl_saveItems F ext df enc cfg l w = (Ok tt, w1)
    /\ exists r w2, fl_getItems F ext dec cfg w1 = (Ok r, w2)
                    /\ hread (w_heap w2) r = hread (w_heap w) l.
Proof.
  intros Hm. destruct (enc_dec (hread (w_heap w) l)) as [c [He Hd]].
  destruct (fl_save_get_passthrough w l c _ Hm He Hd) as [w1 [r [w2 [H1 [H2 H3]]]]].
  exists w1. split; [exact H1|]. exists r, w2. split; assumption.
Qed.

(** [getItems], change the array, [saveItems]: the next [getItems] reads
    the changed array. *)
Lemma fl_update_passthrough (w w1 : world fl_state F) (l : loc) (g : list jsv -> list jsv) :
  inMemory cfg = false -> fl_getItems F ext dec cfg w = (Ok l, w1) ->
  exists w', (items <- fl_getItems F ext dec cfg;; xs <- read items;;
              write items (g xs);;; fl_saveItems F ext df enc cfg items) w = (Ok tt, w')
    /\ exists r w2, fl_getItems F ext dec cfg w' = (Ok r, w2)
                    /\ hread (w_heap w2) r = g (hread (w_heap w1) l).
Proof.
  intros Hm Hg. cbv [bind read gets write modify]. rewrite Hg.
  destruct (fl_save_ok (set_heap (hwrite (w_heap w1) l (g (hread (w_heap w1) l))) w1) l Hm)
    as [w' [H1 [r [w2 [H2 H3]]]]].
  exists w'. split; [exact H1|]. exists r, w2. split; [exact H2|].
  rewrite H3. simpl. rewrite (Nat.eqb_refl l). reflexivity.
Qed.

Lemma fl_addItemFront_passthrough (w w1 : world fl_state F) (l : loc) (x : jsv) :
  inMemory cfg = false -> fl_getItems F ext dec cfg w = (Ok l, w1) ->
  exists w', fl_addItemFront F ext df dec enc cfg x w = (Ok tt, w')
    /\ exists r w2, fl_getItems F ext dec cfg w' = (Ok r, w2)
                    /\ hread (w_heap w2) r = x :: hread (w_heap w1) l.
Proof.
  intros Hm Hg. unfold fl_addItemFront. rewrite Hm.
  exact (fl_update_passthrough w w1 l (fun xs => x :: xs) Hm Hg).
Qed.

Lemma fl_addItemBack_passthrough (w w1 : world fl_state F) (l : loc) (x : jsv) :
  inMemory cfg = false -> fl_getItems F ext dec cfg w = (Ok l, w1) ->
  exists w', fl_addItemBack F ext df dec enc cfg x w = (Ok tt, w')
    /\ exists r w2, fl_getItems F ext dec cfg w' = (Ok r, w2)
                    /\ hread (w_heap w2) r = (hread (w_heap w1) l ++ [x])%list.
Proof.
  intros Hm Hg. unfold fl_addItemBack. rewrite Hm.
  exact (fl_update_passthrough w w1 l (fun xs => xs ++ [x])%list Hm Hg).
Qed.

(** Pass-through removal returns the item itself (no [|| null]). *)
Lemma fl_removeItemFront_passthrough (w w1 : world fl_state F) (l : loc) (y : jsv) (ys : list jsv) :
  inMemory cfg = false -> fl_getItems F ext dec cfg w = (Ok l, w1) ->
  hread (w_heap w1) l = y :: ys ->
  exists w', fl_removeItemFront F ext df dec enc cfg w = (Ok y, w').
Proof.
  intros Hm Hg Hr. unfold fl_removeItemFront. rewrite Hm.
  cbv [bind read gets write modify ret]. rewrite Hg, Hr.
  destruct (fl_save_ok (set_heap (hwrite (w_heap w1) l ys) w1) l Hm) as [w' [H1 _]].
  rewrite H1. exists w'. reflexivity.
Qed.

Lemma fl_removeItemBack_passthrough (w w1 : world fl_state F) (l : loc) :
  inMemory cfg = false -> fl_getItems F ext dec cfg w = (Ok l, w1) ->
  hread (w_heap w1) l <> [] ->
  exists w', fl_removeItemBack F ext df dec enc cfg w
             = (Ok (last (hread (w_heap w1) l) JNull), w').
Proof.
  intros Hm Hg Hr. unfold fl_removeItemBack. rewrite Hm.
  cbv [bind read gets write modify ret]. rewrite Hg.
  destruct (fl_save_ok (set_heap (hwrite (w_heap w1) l (removelast (hread (w_heap w1) l))) w1)
              l Hm) as [w' [H1 _]].
  destruct (hread (w_heap w1) l) as [|y ys]; [contradiction|].
  rewrite H1. exists w'. reflexivity.
Qed.

End FileRoundTrip.

Lemma json_enc_dec (xs : list jsv) : exists c, json_encode xs = Some c /\ json_decode c = Some xs.
Proof. exists (JsonArray xs). split; reflexivity. Qed.

(** ** C4: counterexample
    CSV file loader, pass-through mode, empty templates directory: the
    item [{a: "42"}] passes validation (no template), but after
    [pushFront] the queue reads back as [[{a: 42}]]: the cell is written
    as text and coerced to a number when the queue is read. *)
Theorem C4_pushFront_csv_cex :
  let cfg := mkConfig false None false in
  let x := JObj [("a", JStr "42")] in
  @contents _ _ (CsvLoader cfg) cfg (new_file_world []) = Some []
  /\ validateItem (m_itemTemplate (w_mgr (new_file_world (F := csv_file) []))) x = true
  /\ exists w', @pushFront _ _ (CsvLoader cfg) cfg x (new_file_world []) = (Ok tt, w')
     /\ @contents _ _ (CsvLoader cfg) cfg w' = Some [JObj [("a", JNum 42 0)]]
     /\ JObj [("a", JNum 42 0)] <> x.
Proof.
  simpl. split; [reflexivity|]. split; [reflexivity|].
  eexists. split; [reflexivity|]. split; [reflexivity | discriminate].
Qed.

(** ** C4 (amended)
    A push of an item that fails validation against the manager's
    template throws the schema error and leaves the whole state as it
    was, over any loader.  A push of an item that passes inserts it at
    the named end ([push_inserts]) in cached mode over any loader, and in
    pass-through mode over the Memory and the JSON loaders.  (Over the CSV
    loader in pass-through mode the item is read back coerced, see the
    counterexample; the Spreadsheet loader in pass-through mode is not
    covered here.) *)
Theorem push_validates_then_inserts :
  (forall (L F : Type) (LD : QueueLoader L F) (cfg : config) (w : world L F) (x : jsv),
      validateItem (m_itemTemplate (w_mgr w)) x = false ->
      pushFront cfg x w = (Err schema_error, w) /\ pushBack cfg x w = (Err schema_error, w))
  /\ (forall (L F : Type) (LD : QueueLoader L F) (cfg : config) (w : world L F) (x : jsv),
      inMemory cfg = true -> validateItem (m_itemTemplate (w_mgr w)) x = true ->
      push_inserts LD cfg w x)
  /\ (forall (cfg : config) (w : world mem_state unit) (x : jsv),
      inMemory cfg = false -> validateItem (m_itemTemplate (w_mgr w)) x = true ->
      push_inserts (MemoryLoader cfg) cfg w x)
  /\ (forall (cfg : config) (w : world fl_state json_file) (x : jsv),
      inMemory cfg = false -> validateItem (m_itemTemplate (w_mgr w)) x = true ->
      push_inserts (JsonLoader cfg) cfg w x).
Proof.
  split; [|split; [|split]].
  - intros L F LD cfg w x Hv. unfold pushFront, pushBack.
    cbv [bind get_mgr gets]. rewrite Hv. split; reflexivity.
  - intros L F LD cfg w x Hm Hv xs Hc. unfold contents in *. rewrite Hm in *.
    injection Hc as E. unfold pushFront, pushBack.
    cbv [bind get_mgr gets read write modify]. rewrite Hv, Hm. simpl.
    eexists _, _. split; [reflexivity|]. split; [|split; [reflexivity|]];
      simpl; rewrite (Nat.eqb_refl (m_items (w_mgr w))), E; reflexivity.
  - intros cfg w x Hm Hv xs Hc. destruct w as [[c n] fs [i li] mg].
    unfold contents in *. rewrite Hm in *. simpl in Hc, Hv.
    rewrite (Nat.eqb_refl n) in Hc. injection Hc as E.
    unfold pushFront, pushBack. cbv [bind get_mgr gets]. simpl. rewrite Hv, Hm. simpl.
    eexists _, _. split; [reflexivity|]. split; [|split; [reflexivity|]]; simpl;
      rewrite (Nat.eqb_refl n), (Nat.eqb_refl li), E; reflexivity.
  - intros cfg w x Hm Hv xs Hc. unfold contents in Hc. rewrite Hm in Hc.
    cbn [ld_getItems JsonLoader FileLoader] in Hc.
    destruct (fl_getItems json_file ".json" json_decode cfg w) as [[l|e] w1] eqn:G;
      [|discriminate].
    injection Hc as E.
    destruct (fl_addItemFront_passthrough json_file ".json" "queue.json" json_decode
                json_encode cfg json_enc_dec w w1 l x Hm G) as [wf [Hf [rf [wf2 [Gf Ef]]]]].
    destruct (fl_addItemBack_passthrough json_file ".json" "queue.json" json_decode
                json_encode cfg json_enc_dec w w1 l x Hm G) as [wb [Hb [rb [wb2 [Gb Eb]]]]].
    exists wf, wb. unfold pushFront, pushBack, contents.
    cbv [bind get_mgr gets]. rewrite Hv, Hm. cbn [negb ld_addItemFront ld_addItemBack
      ld_getItems JsonLoader FileLoader].
    rewrite Hf, Hb, Gf, Gb, Ef, Eb, E. repeat split; reflexivity.
Qed.

Lemma push_validates_then_inserts_witness :
  (pushFront (LD := MemoryLoader (mkConfig true None true)) (mkConfig true None true)
     (JNum 1 0) (set_mgr (mkMgr 1 true (Some [("task", "string")])) memory_world0)
   = (Err schema_error, set_mgr (mkMgr 1 true (Some [("task", "string")])) memory_world0))
  /\ push_inserts (MemoryLoader (mkConfig true None true)) (mkConfig true None true)
       memory_world0 (JNum 1 0)
  /\ push_inserts (MemoryLoader (mkConfig false None true)) (mkConfig false None true)
       memory_world0 (JStr "a")
  /\ push_inserts (JsonLoader (mkConfig false None false)) (mkConfig false None false)
       (new_file_world []) (JObj [("task", JStr "a")]).
Proof.
  split; [|split; [|split]].
  - apply (proj1 push_validates_then_inserts _ _ (MemoryLoader (mkConfig true None true))).
    reflexivity.
  - apply (proj1 (proj2 push_validates_then_inserts) _ _ (MemoryLoader (mkConfig true None true)));
      reflexivity.
  - apply (proj1 (proj2 (proj2 push_validates_then_inserts))); reflexivity.
  - apply (proj2 (proj2 (proj2 push_validates_then_inserts))); reflexivity.
Defined.

(** ** C6
    A falsy item that passes validation is lost by a push followed by a
    get at the same end: in cached mode over any loader, and in
    pass-through mode over the Memory loader, [shift() || null] and
    [pop() || null] turn [0], [false] or [""] into [null].  The JSON
    loader's pass-through path has no [|| null] and returns the item,
    here [0]. *)
Theorem C6_falsy_item_lost :
  (forall (L F : Type) (LD : QueueLoader L F) (cfg : config) (w : world L F) (x : jsv),
      inMemory cfg = true -> validateItem (m_itemTemplate (w_mgr w)) x = true ->
      truthy x = false ->
      (exists w1, (pushBack cfg x;;; getBack cfg) w = (Ok JNull, w1))
      /\ (exists w2, (pushFront cfg x;;; getFront cfg) w = (Ok JNull, w2)))
  /\ (forall (cfg : config) (w : world mem_state unit) (x : jsv),
      inMemory cfg = false -> validateItem (m_itemTemplate (w_mgr w)) x = true ->
      truthy x = false ->
      (exists w1, (pushBack (LD := MemoryLoader cfg) cfg x;;;
                   getBack (LD := MemoryLoader cfg) cfg) w = (Ok JNull, w1))
      /\ (exists w2, (pushFront (LD := MemoryLoader cfg) cfg x;;;
                      getFront (LD := MemoryLoader cfg) cfg) w = (Ok JNull, w2)))
  /\ push_get_returns (JsonLoader (mkConfig false None false)) (mkConfig false None false)
       (new_file_world []) (JNum 0 0).
Proof.
  split; [|split].
  - intros L F LD cfg w x Hm Hv Ht. unfold pushFront, pushBack, getFront, getBack.
    rewrite Hm. cbv [bind get_mgr gets read write modify ret]. rewrite Hv. simpl.
    rewrite (Nat.eqb_refl (m_items (w_mgr w))), last_last. unfold or_null. rewrite Ht.
    split; [|eexists; reflexivity].
    destruct (hread (w_heap w) (m_items (w_mgr w)) ++ [x])%list eqn:E;
      [destruct (hread (w_heap w) (m_items (w_mgr w))); discriminate | eexists; reflexivity].
  - intros cfg w x Hm Hv Ht. destruct w as [[c n] fs [i li] mg].
    unfold pushFront, pushBack, getFront, getBack.
    rewrite Hm. simpl in Hv. cbv [bind get_mgr gets]. simpl. rewrite Hv.
    cbn [negb ld_addItemFront ld_addItemBack ld_removeItemFront ld_removeItemBack MemoryLoader].
    cbv [mem_addItemFront mem_addItemBack mem_removeItemFront mem_removeItemBack
         bind get_loader gets read write modify ret]. simpl.
    rewrite (Nat.eqb_refl li), last_last. unfold or_null. rewrite Ht.
    split; [|eexists; reflexivity].
    destruct (c li ++ [x])%list eqn:E; [destruct (c li); discriminate | eexists; reflexivity].
  - split; eexists; reflexivity.
Qed.

Lemma C6_falsy_item_lost_witness :
  ((exists w1, (pushBack (LD := MemoryLoader (mkConfig true None true)) (mkConfig true None true)
                  (JNum 0 0);;;
                getBack (LD := MemoryLoader (mkConfig true None true)) (mkConfig true None true))
                 memory_world0 = (Ok JNull, w1))
   /\ (exists w2, (pushFront (LD := MemoryLoader (mkConfig true None true))
                     (mkConfig true None true) (JNum 0 0);;;
                   getFront (LD := MemoryLoader (mkConfig true None true))
                     (mkConfig true None true)) memory_world0 = (Ok JNull, w2)))
  /\ ((exists w1, (pushBack (LD := MemoryLoader (mkConfig false None true))
                     (mkConfig false None true) (JBool false);;;
                   getBack (LD := MemoryLoader (mkConfig false None true))
                     (mkConfig false None true)) memory_world0 = (Ok JNull, w1))
      /\ (exists w2, (pushFront (LD := MemoryLoader (mkConfig false None true))
                        (mkConfig false None true) (JBool false);;;
                      getFront (LD := MemoryLoader (mkConfig false None true))
                        (mkConfig false None true)) memory_world0 = (Ok JNull, w2))).
Proof.
  split.
  - apply (proj1 C6_falsy_item_lost _ _ (MemoryLoader (mkConfig true None true))); reflexivity.
  - apply (proj1 (proj2 C6_falsy_item_lost)); reflexivity.
Defined.

(** A push of an item that passes validation followed by a get at the
    same end returns the item: in cached mode over any loader and in
    pass-through mode over the Memory loader for every truthy item, and
    in pass-through mode over the JSON loader for every item, provided
    its file reads. *)
Theorem push_then_get_returns_item :
  (forall (L F : Type) (LD : QueueLoader L F) (cfg : config) (w : world L F) (x : jsv),
      inMemory cfg = true -> validateItem (m_itemTemplate (w_mgr w)) x = true ->
      truthy x = true -> push_get_returns LD cfg w x)
  /\ (forall (cfg : config) (w : world mem_state unit) (x : jsv),
      inMemory cfg = false -> validateItem (m_itemTemplate (w_mgr w)) x = true ->
      truthy x = true -> push_get_returns (MemoryLoader cfg) cfg w x)
  /\ (forall (cfg : config) (w : world fl_state json_file) (x : jsv) (xs : list jsv),
      inMemory cfg = false -> validateItem (m_itemTemplate (w_mgr w)) x = true ->
      contents (LD := JsonLoader cfg) cfg w = Some xs ->
      push_get_returns (JsonLoader cfg) cfg w x).
Proof.
  split; [|split].
  - intros L F LD cfg w x Hm Hv Ht. unfold push_get_returns, pushFront, pushBack, getFront, getBack.
    rewrite Hm. cbv [bind get_mgr gets read write modify ret]. rewrite Hv. simpl.
    rewrite (Nat.eqb_refl (m_items (w_mgr w))), last_last. unfold or_null. rewrite Ht.
    split; [|eexists; reflexivity].
    destruct (hread (w_heap w) (m_items (w_mgr w)) ++ [x])%list eqn:E;
      [destruct (hread (w_heap w) (m_items (w_mgr w))); discriminate | eexists; reflexivity].
  - intros cfg w x Hm Hv Ht. destruct w as [[c n] fs [i li] mg].
    unfold push_get_returns, pushFront, pushBack, getFront, getBack.
    rewrite Hm. simpl in Hv. cbv [bind get_mgr gets]. simpl. rewrite Hv.
    cbn [negb ld_addItemFront ld_addItemBack ld_removeItemFront ld_removeItemBack MemoryLoader].
    cbv [mem_addItemFront mem_addItemBack mem_removeItemFront mem_removeItemBack
         bind get_loader gets read write modify ret]. simpl.
    rewrite (Nat.eqb_refl li), last_last. unfold or_null. rewrite Ht.
    split; [|eexists; reflexivity].
    destruct (c li ++ [x])%list eqn:E; [destruct (c li); discriminate | eexists; reflexivity].
  - intros cfg w x xs Hm Hv Hc. unfold contents in Hc. rewrite Hm in Hc.
    cbn [ld_getItems JsonLoader FileLoader] in Hc.
    destruct (fl_getItems json_file ".json" json_decode cfg w) as [[l|e] w1] eqn:G;
      [|discriminate].
    destruct (fl_addItemFront_passthrough json_file ".json" "queue.json" json_decode
                json_encode cfg json_enc_dec w w1 l x Hm G) as [wf [Hf [rf [wf2 [Gf Ef]]]]].
    destruct (fl_addItemBack_passthrough json_file ".json" "queue.json" json_decode
                json_encode cfg json_enc_dec w w1 l x Hm G) as [wb [Hb [rb [wb2 [Gb Eb]]]]].
    destruct (fl_removeItemFront_passthrough json_file ".json" "queue.json" json_decode
                json_encode cfg json_enc_dec wf wf2 rf x _ Hm Gf Ef) as [wf' Rf].
    assert (Nb : hread (w_heap wb2) rb <> []).
    { rewrite Eb. destruct (hread (w_heap w1) l); discriminate. }
    destruct (fl_removeItemBack_passthrough json_file ".json" "queue.json" json_decode
                json_encode cfg json_enc_dec wb wb2 rb Hm Gb Nb) as [wb' Rb].
    rewrite Eb, last_last in Rb.
    unfold push_get_returns, pushFront, pushBack, getFront, getBack.
    rewrite Hm. cbv [bind get_mgr gets]. rewrite Hv.
    cbn [negb ld_addItemFront ld_addItemBack ld_removeItemFront ld_removeItemBack
         JsonLoader FileLoader].
    rewrite Hf, Hb, Rf, Rb. split; eexists; reflexivity.
Qed.

Lemma push_then_get_returns_item_witness :
  push_get_returns (MemoryLoader (mkConfig true None true)) (mkConfig true None true)
    memory_world0 (JNum 7 0)
  /\ push_get_returns (MemoryLoader (mkConfig false None true)) (mkConfig false None true)
    memory_world0 (JStr "a")
  /\ push_get_returns (JsonLoader (mkConfig false None false)) (mkConfig false None false)
    (new_file_world []) (JNum 0 0).
Proof.
  split; [|split].
  - apply (proj1 push_then_get_returns_item _ _ (MemoryLoader (mkConfig true None true)));
      reflexivity.
  - apply (proj1 (proj2 push_then_get_returns_item)); reflexivity.
  - apply (proj2 (proj2 push_then_get_returns_item) _ _ _ []); reflexivity.
Defined.


(** ** Save then read, per loader *)



(** *** CSV files: which item lists survive a write and a read *)








(** *** Sheets: which item lists survive a write and a read *)










(** ** C1: the Memory loader's array shared after [replaceFromTemplate]
    Memory loader, cached mode.  [MemoryLoader.loadTemplate] returns its
    own array ([this.items = []; return this.items]) and the manager keeps
    it as its queue, so a later [pushBack] writes the loader's store: its
    items go from [[]] to [[x]].  Straight after [initialize] the manager
    holds a copy ([getItems] returns [[...this.items]]) and the same
    [pushBack] leaves the loader's items alone. *)
Theorem C1_memory_store_written_after_replace :
  let cfg := mkConfig true None true in
  let x := JObj [("task", JStr "a")] in
  (exists w1 w2,
      (mgr_initialize (LD := MemoryLoader cfg) cfg;;;
       replaceFromTemplate (LD := MemoryLoader cfg) cfg "t") memory_world0 = (Ok tt, w1)
      /\ hread (w_heap w1) (ml_items (w_loader w1)) = []
      /\ contents (LD := MemoryLoader cfg) cfg w1 = Some []
      /\ pushBack (LD := MemoryLoader cfg) cfg x w1 = (Ok tt, w2)
      /\ contents (LD := MemoryLoader cfg) cfg w2 = Some [x]
      /\ hread (w_heap w2) (ml_items (w_loader w2)) = [x])
  /\ (exists w1 w2,
      mgr_initialize (LD := MemoryLoader cfg) cfg memory_world0 = (Ok tt, w1)
      /\ pushBack (LD := MemoryLoader cfg) cfg x w1 = (Ok tt, w2)
      /\ contents (LD := MemoryLoader cfg) cfg w2 = Some [x]
      /\ hread (w_heap w2) (ml_items (w_loader w2)) = []).
Proof.
  split; do 2 eexists; repeat split; cbv; reflexivity.
Qed.

(** ** C3: [addFrontFromTemplate] in pass-through mode over the JSON loader
    Templates directory [queue.json] = [[{v:3}]], [t.json] =
    [[{v:1},{v:2}]].  After [initialize] the queue reads [[{v:3}]].  In
    pass-through mode [addFrontFromTemplate("t")] ends with the queue
    reading [[{v:1},{v:2},{v:1},{v:2}]] and [queue.json] untouched:
    [loadTemplate] makes [t.json] the active file, so the following
    [getItems] reads the template instead of the queue and [saveItems]
    writes [t.json].  In cached mode the same call gives
    [[{v:1},{v:2},{v:3}]]. *)
Theorem C3_addFront_passthrough_reads_template :
  let v := fun n : Z => JObj [("v", JNum n 0)] in
  let fs0 := [("queue.json", JsonArray [v 3%Z]); ("t.json", JsonArray [v 1%Z; v 2%Z])] in
  let cfgP := mkConfig false None false in
  let cfgC := mkConfig true None false in
  (exists w0 w1,
      mgr_initialize (LD := JsonLoader cfgP) cfgP (new_file_world fs0) = (Ok tt, w0)
      /\ contents (LD := JsonLoader cfgP) cfgP w0 = Some [v 3%Z]
      /\ addFrontFromTemplate (LD := JsonLoader cfgP) cfgP "t" w0 = (Ok tt, w1)
      /\ contents (LD := JsonLoader cfgP) cfgP w1 = Some [v 1%Z; v 2%Z; v 1%Z; v 2%Z]
      /\ fs_lookup "queue.json" (w_fs w1) = Some (JsonArray [v 3%Z])
      /\ fs_lookup "t.json" (w_fs w1) = Some (JsonArray [v 1%Z; v 2%Z; v 1%Z; v 2%Z]))
  /\ (exists w0 w1,
      mgr_initialize (LD := JsonLoader cfgC) cfgC (new_file_world fs0) = (Ok tt, w0)
      /\ contents (LD := JsonLoader cfgC) cfgC w0 = Some [v 3%Z]
      /\ addFrontFromTemplate (LD := JsonLoader cfgC) cfgC "t" w0 = (Ok tt, w1)
      /\ contents (LD := JsonLoader cfgC) cfgC w1 = Some [v 1%Z; v 2%Z; v 3%Z]).
Proof.
  split; do 2 eexists; repeat split; cbv; reflexivity.
Qed.

(** ** The get and push tools *)

(** The get tool in cached mode, on an empty queue: whichever end the
    request resolves to, the answer is the success text [Queue is empty]
    and nothing changes. *)
Theorem get_tool_empty_queue {L F} {LD : QueueLoader L F} (cfg : config)
    (tc : get_tool_config) (params : get_params) (w : world L F) :
  inMemory cfg = true ->
  contents cfg w = Some [] ->
  get_execute cfg tc params w = (Ok (createSuccessResponse "Queue is empty"), w).
Proof.
  intros Hm Hc. unfold contents in Hc. rewrite Hm in Hc. injection Hc as Hc.
  cbv [get_execute catch bind getFront getBack get_mgr gets read ret].
  rewrite Hm. destruct (String.eqb _ "front"); rewrite Hc; reflexivity.
Qed.

(** The get tool in cached mode, when the request resolves to the front of
    a queue [x :: xs]: the queue becomes [xs] and the answer is
    [JSON.stringify(x, null, 2)] when [x] is truthy, but the text
    [Queue is empty] when it is falsy (the removed item is lost). *)
Theorem get_tool_cached_front {L F} {LD : QueueLoader L F} (cfg : config)
    (tc : get_tool_config) (params : get_params) (w : world L F) x xs :
  inMemory cfg = true ->
  contents cfg w = Some (x :: xs) ->
  get_direction tc params = "front" ->
  exists w',
    get_execute cfg tc params w =
      (Ok (createSuccessResponse (if truthy x then json_pretty x else "Queue is empty")), w')
    /\ contents cfg w' = Some xs.
Proof.
  intros Hm Hc Hd. unfold contents in Hc |- *. rewrite Hm in Hc |- *. injection Hc as Hc.
  cbv [get_execute catch bind getFront get_mgr gets read write modify ret].
  rewrite Hd, Hm. cbn -[json_pretty truthy hread]. rewrite Hc.
  eexists; split.
  - unfold or_null. destruct (truthy x) eqn:T; [|reflexivity].
    destruct x; [discriminate|reflexivity..].
  - cbn. rewrite (Nat.eqb_refl (m_items (w_mgr w))). reflexivity.
Qed.

(** The get tool in cached mode, when the request resolves to any
    direction other than [front] on a non-empty queue [xs]: the last item
    [y] is removed and the answer is [JSON.stringify(y, null, 2)] when [y]
    is truthy, the text [Queue is empty] when it is falsy. *)
Theorem get_tool_cached_back {L F} {LD : QueueLoader L F} (cfg : config)
    (tc : get_tool_config) (params : get_params) (w : world L F) xs :
  inMemory cfg = true ->
  contents cfg w = Some xs ->
  xs <> [] ->
  String.eqb (get_direction tc params) "front" = false ->
  let y := last xs JNull in
  exists w',
    get_execute cfg tc params w =
      (Ok (createSuccessResponse (if truthy y then json_pretty y else "Queue is empty")), w')
    /\ contents cfg w' = Some (removelast xs).
Proof.
  intros Hm Hc Hne Hd y. unfold contents in Hc |- *. rewrite Hm in Hc |- *. injection Hc as Hc.
  cbv [get_execute catch bind getBack get_mgr gets read write modify ret].
  rewrite Hd, Hm. cbn -[json_pretty truthy hread removelast last]. rewrite Hc.
  destruct xs as [|x0 r]; [congruence|].
  eexists; split.
  - fold y. unfold or_null. destruct (truthy y) eqn:T; [|reflexivity].
    destruct y; [discriminate|reflexivity..].
  - cbn -[removelast]. rewrite (Nat.eqb_refl (m_items (w_mgr w))). reflexivity.
Qed.

(** The push tool rejects a missing item and any item that is not an array
    or object (null included) with [Error: Item parameter must be an
    object], whatever the mode, and changes nothing. *)
Theorem push_tool_rejects_non_object {L F} {LD : QueueLoader L F} (cfg : config)
    (tc : push_tool_config) (params : push_params) (w : world L F) :
  (pp_item params = None
   \/ exists v, pp_item params = Some v
                /\ match v with JArr _ | JObj _ => False | _ => True end) ->
  push_execute cfg tc params w
  = (Ok (createErrorResponse "Item parameter must be an object"), w).
Proof.
  intros [H | [v [H Hv]]]; unfold push_execute, catch; rewrite H; [reflexivity|].
  destruct v; try contradiction; cbn; try reflexivity.
  - destruct b; reflexivity.
  - destruct (Z.eqb m 0); reflexivity.
  - destruct (String.eqb s ""); reflexivity.
Qed.

(** The push tool rejects an array or object that fails the manager's
    template with [Error: Item does not match the required schema],
    whatever the mode, and changes nothing. *)
Theorem push_tool_rejects_invalid {L F} {LD : QueueLoader L F} (cfg : config)
    (tc : push_tool_config) (params : push_params) (w : world L F) x :
  pp_item params = Some x ->
  match x with JArr _ | JObj _ => True | _ => False end ->
  validateItem (m_itemTemplate (w_mgr w)) x = false ->
  push_execute cfg tc params w
  = (Ok (createErrorResponse "Item does not match the required schema"), w).
Proof.
  intros H Hx Hv. unfold push_execute, catch. rewrite H.
  destruct x; try contradiction;
    cbv [truthy typeof negb orb String.eqb Ascii.eqb Bool.eqb bind get_mgr gets];
    rewrite Hv; reflexivity.
Qed.

(** The push tool in cached mode with an array or object the template
    accepts: the answer is [Item added to queue], and the item goes to the
    front when [params.direction || config.default || 'back'] is [front],
    to the back otherwise.  The [directionExposed] setting plays no part:
    [config.directionExposed || true] is always true. *)
Theorem push_tool_cached {L F} {LD : QueueLoader L F} (cfg : config)
    (tc : push_tool_config) (params : push_params) (w : world L F) x xs :
  inMemory cfg = true ->
  contents cfg w = Some xs ->
  pp_item params = Some x ->
  match x with JArr _ | JObj _ => True | _ => False end ->
  validateItem (m_itemTemplate (w_mgr w)) x = true ->
  exists w',
    push_execute cfg tc params w = (Ok (createSuccessResponse "Item added to queue"), w')
    /\ contents cfg w' =
       Some (if String.eqb (or_default (pp_direction params) (or_default (pt_default tc) "back"))
                           "front"
             then x :: xs else (xs ++ [x])%list).
Proof.
  intros Hm Hc H Hx Hv. unfold contents in Hc |- *. rewrite Hm in Hc |- *. injection Hc as Hc.
  assert (Hd : push_direction tc params
               = or_default (pp_direction params) (or_default (pt_default tc) "back"))
    by (unfold push_direction; rewrite orb_true_r; reflexivity).
  assert (Hobj : negb (truthy x) || negb (String.eqb (typeof x) "object") = false)
    by (destruct x; try contradiction; reflexivity).
  unfold push_execute, catch. rewrite H, Hobj, Hd.
  cbv [bind get_mgr gets ret]. rewrite Hv. cbn [negb].
  destruct (String.eqb _ "front");
    cbv [pushFront pushBack bind get_mgr gets read write modify ret throw];
    rewrite Hv, Hm; cbn; rewrite Hc;
    (eexists; split; [reflexivity|];
     cbn; rewrite (Nat.eqb_refl (m_items (w_mgr w))); reflexivity).
Qed.

(** ** Schema inference *)

Lemma check_fields_inferred (kvs sub : list (string * jsv)) :
  NoDup (map fst kvs) -> (forall kv, In kv sub -> In kv kvs) ->
  check_fields (map (fun '(k, v) => (k, typeof v)) sub) (JObj kvs)
  = forallb (fun kv => negb (is_null (snd kv))) sub.
Proof.
  intros Hnd. induction sub as [|[k v] r IH]; intros Hsub; [reflexivity|].
  cbn [map check_fields forallb snd].
  unfold js_get, own_get. rewrite (assoc_in k v kvs Hnd (Hsub _ (or_introl eq_refl))).
  rewrite IH by (intros kv H; apply Hsub; right; exact H).
  destruct v; reflexivity.
Qed.

(** An object item checked against the schema [inferSchema] draws from it
    (the file loaders' schema when no template is configured): it passes
    exactly when none of its fields is [null], since [typeof null] is
    [object] and an [object] field must not be null; a [__proto__] key is
    left out of the schema, so its value is not checked. *)
Theorem inferSchema_self_valid (kvs : list (string * jsv)) :
  NoDup (map fst kvs) ->
  validateItem (Some (inferSchema (JObj kvs))) (JObj kvs) = true
  <-> Forall (fun kv => fst kv <> "__proto__" -> snd kv <> JNull) kvs.
Proof.
  intros Hnd. unfold validateItem, inferSchema. cbn [typeof is_null own_entries].
  cbn -[check_fields filter].
  rewrite (check_fields_inferred kvs _ Hnd (fun kv H => proj1 (proj1 (filter_In _ kv kvs) H))).
  rewrite forallb_forall, Forall_forall.
  split; intros H kv Hin.
  - intros Hk. assert (Hf : In kv (filter (fun kv => negb (String.eqb (fst kv) "__proto__")) kvs)).
    { apply filter_In. split; [exact Hin|].
      destruct (String.eqb_spec (fst kv) "__proto__"); [contradiction | reflexivity]. }
    specialize (H kv Hf). destruct (snd kv); discriminate.
  - apply filter_In in Hin as [Hin Hk].
    specialize (H kv Hin).
    destruct (String.eqb_spec (fst kv) "__proto__"); [discriminate|].
    destruct (snd kv); [exfalso; apply H; [assumption | reflexivity] | reflexivity..].
Qed.

(** ** Manager initialisation over a file loader *)

(** Over a file loader, [initialize] on a fresh manager opens the first
    file of the templates directory with the loader's extension: when it
    decodes to [xs], initialisation succeeds, the queue's content is [xs]
    in both modes, and the manager's template is the configured one or,
    without one, the schema inferred from the first item (none for an
    empty file). *)
Theorem initialize_loads_first_file (F : Type) (ext df : string)
    (dec : F -> option (list jsv)) (enc : list jsv -> option F) (cfg : config)
    (fs : fsys F) (f : string) (rest : list string) (c : F) (xs : list jsv) :
  filter (ends_with ext) (map fst fs) = f :: rest ->
  fs_lookup f fs = Some c ->
  dec c = Some xs ->
  exists w',
    mgr_initialize (LD := FileLoader F ext df dec enc cfg) cfg (new_file_world fs) = (Ok tt, w')
    /\ m_itemTemplate (w_mgr w') =
       match cfg_itemTemplate cfg with
       | Some t => Some t
       | None => option_map inferSchema (hd_error xs)
       end
    /\ contents (LD := FileLoader F ext df dec enc cfg) cfg w' = Some xs.
Proof.
  intros Hf Hl Hd.
  cbv [mgr_initialize bind get_mgr gets ret new_file_world halloc empty_heap].
  cbn [w_mgr m_initialized ld_initialize FileLoader].
  cbv [fl_initialize bind get_loader gets catch readdir ret].
  cbn [w_loader fl_initialized w_fs]. rewrite Hf.
  cbv -[fs_lookup inferSchema]. rewrite Hl, Hd.
  destruct cfg as [[|] [t|] pu]; destruct xs as [|x0 xs'];
    cbv -[inferSchema fs_lookup]; (eexists; split; [reflexivity|]);
    cbv -[inferSchema fs_lookup]; try rewrite Hl; try rewrite Hd; cbv -[inferSchema];
    split; reflexivity.
Qed.

(** Over a file loader, [initialize] on a fresh manager never fails.  When
    no file has the loader's extension the queue starts empty.  When the
    first such file cannot be read or decoded, the cached mode starts with
    an empty queue but the pass-through mode keeps that file as its active
    file, so every later read of the queue throws.  In both cases the
    manager's template is just the configured one. *)
Theorem initialize_without_readable_file (F : Type) (ext df : string)
    (dec : F -> option (list jsv)) (enc : list jsv -> option F) (cfg : config)
    (fs : fsys F) :
  (filter (ends_with ext) (map fst fs) = [] ->
   exists w',
     mgr_initialize (LD := FileLoader F ext df dec enc cfg) cfg (new_file_world fs) = (Ok tt, w')
     /\ m_itemTemplate (w_mgr w') = cfg_itemTemplate cfg
     /\ contents (LD := FileLoader F ext df dec enc cfg) cfg w' = Some [])
  /\ (forall f rest,
      filter (ends_with ext) (map fst fs) = f :: rest ->
      match fs_lookup f fs with Some c => dec c = None | None => True end ->
      exists w',
        mgr_initialize (LD := FileLoader F ext df dec enc cfg) cfg (new_file_world fs)
        = (Ok tt, w')
        /\ m_itemTemplate (w_mgr w') = cfg_itemTemplate cfg
        /\ contents (LD := FileLoader F ext df dec enc cfg) cfg w'
           = if inMemory cfg then Some [] else None).
Proof.
  split; [intros Hf | intros f rest Hf Hl].
  all: cbv [mgr_initialize bind get_mgr gets ret new_file_world halloc empty_heap];
    cbn [w_mgr m_initialized ld_initialize FileLoader];
    cbv [fl_initialize bind get_loader gets catch readdir ret];
    cbn [w_loader fl_initialized w_fs]; rewrite Hf.
  - destruct cfg as [[|] [t|] pu]; cbv -[filter ends_with map fst];
      (eexists; split; [reflexivity|]);
      cbv -[filter ends_with map fst]; rewrite ?Hf; cbv; split; reflexivity.
  - cbv -[fs_lookup]. destruct (fs_lookup f fs) as [c|] eqn:El; [rewrite Hl|clear Hl];
      destruct cfg as [[|] [t|] pu]; cbv -[fs_lookup]; (eexists; split; [reflexivity|]);
      cbv -[fs_lookup]; rewrite ?El; try rewrite Hl; cbv; split; reflexivity.
Qed.

(** ** Template operations *)

(** Settle the location comparisons of [hread] after writes and
    allocations. *)
Ltac heap_eqb :=
  repeat first [ rewrite Nat.eqb_refl
               | rewrite (proj2 (Nat.eqb_neq _ _)) by lia ].

(** Over a file loader, in either mode, a template whose file
    ([getFilenameFromTemplateId]: the id, with the extension added unless
    it already ends with it) is missing makes [replaceFromTemplate],
    [addFrontFromTemplate] and [addBackFromTemplate] throw
    [Template <id> not found] before anything is changed.  The id holds
    no [/], so [path.join] names the file in the templates directory
    as it is. *)
Theorem file_template_missing (F : Type) (ext df : string)
    (dec : F -> option (list jsv)) (enc : list jsv -> option F) (cfg : config)
    (w : world fl_state F) (t : string) :
  has_slash t = false ->
  fs_lookup (filename_of ext t) (w_fs w) = None ->
  replaceFromTemplate (LD := FileLoader F ext df dec enc cfg) cfg t w = (Err (not_found t), w)
  /\ addFrontFromTemplate (LD := FileLoader F ext df dec enc cfg) cfg t w = (Err (not_found t), w)
  /\ addBackFromTemplate (LD := FileLoader F ext df dec enc cfg) cfg t w = (Err (not_found t), w).
Proof.
  intros _ H.
  repeat split; cbv [replaceFromTemplate addFrontFromTemplate addBackFromTemplate bind];
    cbn [ld_hasTemplate FileLoader]; cbv [fl_hasTemplate gets]; rewrite H; reflexivity.
Qed.

(** Over the Memory loader in pass-through mode, every template is found
    and is empty: [loadTemplate] resets the store to [[]] and returns it.
    So [replaceFromTemplate], [addFrontFromTemplate] and
    [addBackFromTemplate] all succeed and leave the queue empty, whatever
    it held before. *)
Theorem memory_templates_empty_passthrough (cfg : config) (w : world mem_state unit)
    (t : string) :
  inMemory cfg = false ->
  (exists w', replaceFromTemplate (LD := MemoryLoader cfg) cfg t w = (Ok tt, w')
              /\ contents (LD := MemoryLoader cfg) cfg w' = Some [])
  /\ (exists w', addFrontFromTemplate (LD := MemoryLoader cfg) cfg t w = (Ok tt, w')
                 /\ contents (LD := MemoryLoader cfg) cfg w' = Some [])
  /\ (exists w', addBackFromTemplate (LD := MemoryLoader cfg) cfg t w = (Ok tt, w')
                 /\ contents (LD := MemoryLoader cfg) cfg w' = Some []).
Proof.
  intros Hm.
  repeat split; cbv [replaceFromTemplate addFrontFromTemplate addBackFromTemplate contents];
    rewrite Hm; cbv -[Nat.eqb]; (eexists; split; [reflexivity|]); cbv -[Nat.eqb]; heap_eqb;
    reflexivity.
Qed.

(** Over the Memory loader in cached mode, templates are empty too:
    [replaceFromTemplate] leaves the queue empty, and
    [addFrontFromTemplate] and [addBackFromTemplate] succeed and leave the
    queue as it was. *)
Theorem memory_templates_empty_cached (cfg : config) (w : world mem_state unit)
    (t : string) (xs : list jsv) :
  inMemory cfg = true ->
  m_items (w_mgr w) < hnext (w_heap w) ->
  contents (LD := MemoryLoader cfg) cfg w = Some xs ->
  (exists w', replaceFromTemplate (LD := MemoryLoader cfg) cfg t w = (Ok tt, w')
              /\ contents (LD := MemoryLoader cfg) cfg w' = Some [])
  /\ (exists w', addFrontFromTemplate (LD := MemoryLoader cfg) cfg t w = (Ok tt, w')
                 /\ contents (LD := MemoryLoader cfg) cfg w' = Some xs)
  /\ (exists w', addBackFromTemplate (LD := MemoryLoader cfg) cfg t w = (Ok tt, w')
                 /\ contents (LD := MemoryLoader cfg) cfg w' = Some xs).
Proof.
  intros Hm Hlt Hc. unfold contents in Hc. rewrite Hm in Hc. injection Hc as Hc.
  destruct w as [[cells nx] fs ld [mi mini mt]]; cbn in Hlt, Hc.
  repeat split; cbv [replaceFromTemplate addFrontFromTemplate addBackFromTemplate contents];
    rewrite Hm; cbv -[Nat.eqb]; (eexists; split; [reflexivity|]); cbv -[Nat.eqb]; heap_eqb;
    rewrite ?Hc; try reflexivity; f_equal; apply app_nil_r.
Qed.

(** Over a file loader in cached mode, with a template file that decodes
    to [ts] and a queue holding [xs]: [replaceFromTemplate] makes the
    queue [ts], [addFrontFromTemplate] makes it [ts ++ xs] and
    [addBackFromTemplate] makes it [xs ++ ts]. *)
Theorem file_templates_cached (F : Type) (ext df : string)
    (dec : F -> option (list jsv)) (enc : list jsv -> option F) (cfg : config)
    (w : world fl_state F) (t : string) (c : F) (ts xs : list jsv) :
  inMemory cfg = true ->
  m_items (w_mgr w) < hnext (w_heap w) ->
  contents (LD := FileLoader F ext df dec enc cfg) cfg w = Some xs ->
  fs_lookup (filename_of ext t) (w_fs w) = Some c ->
  dec c = Some ts ->
  (exists w', replaceFromTemplate (LD := FileLoader F ext df dec enc cfg) cfg t w = (Ok tt, w')
              /\ contents (LD := FileLoader F ext df dec enc cfg) cfg w' = Some ts)
  /\ (exists w', addFrontFromTemplate (LD := FileLoader F ext df dec enc cfg) cfg t w = (Ok tt, w')
                 /\ contents (LD := FileLoader F ext df dec enc cfg) cfg w' = Some (ts ++ xs)%list)
  /\ (exists w', addBackFromTemplate (LD := FileLoader F ext df dec enc cfg) cfg t w = (Ok tt, w')
                 /\ contents (LD := FileLoader F ext df dec enc cfg) cfg w' = Some (xs ++ ts)%list).
Proof.
  intros Hm Hlt Hc Hl Hd. unfold contents in Hc. rewrite Hm in Hc. injection Hc as Hc.
  destruct w as [[cells nx] fs ld [mi mini mt]]; cbn in Hlt, Hc, Hl.
  destruct cfg as [im tmpl pu]; cbn in Hm; subst im.
  repeat split; cbv [replaceFromTemplate addFrontFromTemplate addBackFromTemplate contents];
    cbv -[Nat.eqb fs_lookup filename_of]; rewrite Hl; cbv -[Nat.eqb fs_lookup filename_of];
    rewrite Hl, Hd; (eexists; split; [reflexivity|]); cbv -[Nat.eqb]; heap_eqb;
    rewrite ?Hc; reflexivity.
Qed.

Lemma fs_lookup_write_other {F} (name g : string) (c : F) (fs : fsys F) :
  g <> name -> fs_lookup g (fs_write name c fs) = fs_lookup g fs.
Proof.
  intros Hne. induction fs as [|[n c'] r IH]; simpl.
  - apply String.eqb_neq in Hne. rewrite Hne. reflexivity.
  - destruct (String.eqb name n) eqn:E; simpl.
    + apply String.eqb_eq in E. subst n.
      apply String.eqb_neq in Hne. rewrite Hne. reflexivity.
    + destruct (String.eqb g n); [reflexivity | exact IH].
Qed.

(** Over a file loader in pass-through mode, [replaceFromTemplate] with a
    template file holding [ts] (which the encoder writes back as read)
    does not overwrite the queue's file: [loadTemplate] makes the template
    file the active one, and the save rewrites that file. *)
Lemma fl_replace_passthrough (F : Type) (ext df : string)
    (dec : F -> option (list jsv)) (enc : list jsv -> option F) (cfg : config)
    (w : world fl_state F) (t : string) (c c' : F) (ts : list jsv) :
  inMemory cfg = false ->
  fs_lookup (filename_of ext t) (w_fs w) = Some c ->
  dec c = Some ts ->
  enc ts = Some c' ->
  dec c' = Some ts ->
  exists w',
    replaceFromTemplate (LD := FileLoader F ext df dec enc cfg) cfg t w = (Ok tt, w')
    /\ contents (LD := FileLoader F ext df dec enc cfg) cfg w' = Some ts
    /\ fl_activeFile (w_loader w') = Some (filename_of ext t)
    /\ (forall g, g <> filename_of ext t -> fs_lookup g (w_fs w') = fs_lookup g (w_fs w)).
Proof.
  intros Hm Hl Hd He Hd'.
  destruct w as [[cells nx] fs ld [mi mini mt]]; cbn in Hl.
  destruct cfg as [im tmpl pu]; cbn in Hm; subst im.
  cbv [replaceFromTemplate contents].
  cbv -[Nat.eqb fs_lookup fs_write filename_of]. rewrite Hl.
  cbv -[Nat.eqb fs_lookup fs_write filename_of]. rewrite Hl, Hd.
  cbv -[Nat.eqb fs_lookup fs_write filename_of]. rewrite Nat.eqb_refl, He.
  eexists; split; [reflexivity|].
  cbv -[Nat.eqb fs_lookup fs_write filename_of]. rewrite fs_lookup_write, Hd'.
  cbv -[Nat.eqb fs_lookup fs_write filename_of]. heap_eqb.
  split; [reflexivity|]. split; [reflexivity|].
  intros g Hg. apply fs_lookup_write_other; exact Hg.
Qed.

(** Over the JSON loader in pass-through mode, [replaceFromTemplate] with
    a template file holding the array [ts] does not overwrite the queue's
    file: [loadTemplate] makes the template file the active one, and the
    save rewrites that file.  The queue then reads [ts], the template file
    is the active file, and every other file is unchanged.  The id holds no
    [/], so [path.join] names the file as it is. *)
Theorem file_replace_passthrough (cfg : config) (w : world fl_state json_file) (t : string)
    (c : json_file) (ts : list jsv) :
  inMemory cfg = false -> has_slash t = false ->
  fs_lookup (filename_of ".json" t) (w_fs w) = Some c ->
  json_decode c = Some ts ->
  exists w',
    replaceFromTemplate (LD := JsonLoader cfg) cfg t w = (Ok tt, w')
    /\ contents (LD := JsonLoader cfg) cfg w' = Some ts
    /\ fl_activeFile (w_loader w') = Some (filename_of ".json" t)
    /\ (forall g, g <> filename_of ".json" t -> fs_lookup g (w_fs w') = fs_lookup g (w_fs w)).
Proof.
  intros Hm _ Hl Hd.
  exact (fl_replace_passthrough json_file ".json" "queue.json" json_decode json_encode cfg w t
           c (JsonArray ts) ts Hm Hl Hd eq_refl eq_refl).
Qed.

(** ** Initialisation runs once *)

(** For any loader, once [initialize] has succeeded a second call does
    nothing: the manager's [initialized] flag is set at the end of the
    first run, and the loader is not asked again. *)
Theorem initialize_idempotent {L F} {LD : QueueLoader L F} (cfg : config)
    (w w' : world L F) :
  mgr_initialize cfg w = (Ok tt, w') ->
  mgr_initialize cfg w' = (Ok tt, w').
Proof.
  intros H. cbv [mgr_initialize bind get_mgr gets ret] in H |- *.
  destruct (m_initialized (w_mgr w)) eqn:Ei.
  - injection H as <-. rewrite Ei. reflexivity.
  - destruct (ld_initialize w) as [[[]|e] w1]; [|discriminate].
    cbv [put_mgr modify] in H.
    destruct (inMemory cfg).
    + cbv [set_items bind get_mgr gets put_mgr modify] in H.
      destruct (ld_getItems _) as [[l|e] w2]; [|discriminate].
      injection H as <-. reflexivity.
    + injection H as <-. reflexivity.
Qed.

(** ** Template file names *)

Lemma ends_with_app (ext s : string) : ends_with ext (s ++ ext) = true.
Proof.
  induction s as [|c s IH]; simpl.
  - destruct ext; simpl; [reflexivity|]. rewrite Ascii.eqb_refl, String.eqb_refl. reflexivity.
  - rewrite IH. match goal with |- (if ?b then _ else _) = _ => destruct b end; reflexivity.
Qed.

(** [getFilenameFromTemplateId] applied to its own result changes nothing,
    so a template can be named by its id or by its file name:
    [hasTemplate] answers the same for both. *)
Theorem filename_of_idempotent (F : Type) (ext : string) (t : string) (w : world fl_state F) :
  filename_of ext (filename_of ext t) = filename_of ext t
  /\ fl_hasTemplate F ext (filename_of ext t) w = fl_hasTemplate F ext t w.
Proof.
  assert (H : filename_of ext (filename_of ext t) = filename_of ext t).
  { unfold filename_of at 2. destruct (ends_with ext t) eqn:E.
    - unfold filename_of. rewrite E. reflexivity.
    - unfold filename_of. rewrite ends_with_app, E. reflexivity. }
  split; [exact H|]. unfold fl_hasTemplate, gets. rewrite H. reflexivity.
Qed.

(** ** CSV writes that throw *)



Lemma csv_row_null (hs : list string) : hs <> [] -> csv_row hs JNull = None.
Proof. intros Hne. destruct hs as [|h hs]; [contradiction|reflexivity]. Qed.


Lemma csv_rows_none (hs : list string) (data : list jsv) (item : jsv) :
  In item data -> csv_row hs item = None -> csv_rows hs data = None.
Proof.
  induction data as [|x r IH]; intros Hin Hn; [destruct Hin|]. cbn [csv_rows].
  destruct Hin as [<-|Hin]; [rewrite Hn; reflexivity|].
  rewrite (IH Hin Hn). destruct (csv_row hs x); reflexivity.
Qed.


Lemma csv_encode_null_later (y : jsv) (xs : list jsv) :
  own_entries y <> [] -> In JNull xs -> csv_encode (y :: xs) = None.
Proof.
  intros Hne Hin. unfold csv_encode.
  assert (Ek : object_keys y = Some (map fst (own_entries y)))
    by (destruct y; [contradiction Hne; reflexivity|reflexivity..]).
  rewrite Ek. set (hs := map fst (own_entries y)).
  assert (Hhs : hs <> []).
  { unfold hs. destruct (own_entries y); [contradiction|discriminate]. }
  rewrite (csv_rows_none hs (y :: xs) JNull (or_intror Hin) (csv_row_null hs Hhs)).
  reflexivity.
Qed.

(** In pass-through mode over CSV with no item template (so [null] passes
    validation), [pushFront(null)] always throws
    [Failed to save CSV file: <active file>], and [pushBack(null)] throws the
    same when the file's first item has a field; the file is left as it
    was. *)
Theorem csv_push_null_fails (cfg : config) (w : world fl_state csv_file) (f : string)
    (c : csv_file) :
  inMemory cfg = false ->
  m_itemTemplate (w_mgr w) = None ->
  fl_activeFile (w_loader w) = Some f ->
  fs_lookup f (w_fs w) = Some c ->
  (exists w', pushFront (LD := CsvLoader cfg) cfg JNull w
              = (Err ("Failed to save CSV file: " ++ f), w') /\ w_fs w' = w_fs w)
  /\ (forall y ys, csv_decode c = Some (y :: ys) -> own_entries y <> [] ->
      exists w', pushBack (LD := CsvLoader cfg) cfg JNull w
                 = (Err ("Failed to save CSV file: " ++ f), w') /\ w_fs w' = w_fs w).
Proof.
  intros Hm Ht Ha Hl.
  destruct w as [[cells nx] fs [li ls lc la] [mi mini mt]]; cbn in Ht, Ha, Hl; subst mt la.
  destruct cfg as [im tmpl pu]; cbn in Hm; subst im.
  split; [|intros y ys Hd Hne];
    cbv -[fs_lookup csv_decode csv_encode Nat.eqb csv_file]; rewrite Hl.
  - assert (Hd : exists xs, csv_decode c = Some xs) by (destruct c; eexists; reflexivity).
    destruct Hd as [xs Hd]. rewrite Hd.
    cbv -[fs_lookup csv_decode csv_encode Nat.eqb csv_file]. heap_eqb.
    cbv [csv_encode object_keys].
    eexists; split; reflexivity.
  - rewrite Hd. cbv -[fs_lookup csv_decode csv_encode Nat.eqb csv_file app]. heap_eqb.
    assert (He : csv_encode (y :: (ys ++ [JNull])%list) = None)
      by (apply csv_encode_null_later; [exact Hne | apply in_or_app; right; left; reflexivity]).
    cbv [app] in He. rewrite He.
    eexists; split; reflexivity.
Qed.

(** ** What a CSV write and read do to values *)



(** ** The get tool over JSON files in pass-through mode *)

(** The get tool in pass-through mode over the JSON loader, when the
    request resolves to the front of a queue [y :: ys]: the file is
    rewritten without [y], and the answer is [JSON.stringify(y, null, 2)]
    for every item but [null], falsy ones such as [0] or [false] included
    (the pass-through removal has no [|| null]); a [null] item answers
    [Queue is empty]. *)
Theorem get_tool_json_passthrough_front (cfg : config) (tc : get_tool_config)
    (params : get_params) (w : world fl_state json_file) (y : jsv) (ys : list jsv) :
  inMemory cfg = false ->
  contents (LD := JsonLoader cfg) cfg w = Some (y :: ys) ->
  get_direction tc params = "front" ->
  exists w',
    get_execute (LD := JsonLoader cfg) cfg tc params w =
      (Ok (createSuccessResponse (if is_null y then "Queue is empty" else json_pretty y)), w')
    /\ contents (LD := JsonLoader cfg) cfg w' = Some ys.
Proof.
  intros Hm Hc Hd. unfold contents in Hc |- *. rewrite Hm in Hc |- *.
  cbn [ld_getItems JsonLoader FileLoader] in Hc |- *.
  destruct (fl_getItems json_file ".json" json_decode cfg w) as [[l|e] w1] eqn:G;
    [|discriminate].
  injection Hc as Hr.
  destruct (fl_save_ok json_file ".json" "queue.json" json_decode json_encode cfg json_enc_dec
              (set_heap (hwrite (w_heap w1) l ys) w1) l Hm)
    as [w' [H1 [r [w2 [H2 H3]]]]].
  exists w'.
  cbv [get_execute catch bind getFront]. rewrite Hd, Hm. cbn [String.eqb Ascii.eqb Bool.eqb].
  cbn [ld_removeItemFront JsonLoader FileLoader]. unfold fl_removeItemFront. rewrite Hm.
  cbv [bind read gets write modify ret]. rewrite G, Hr. rewrite H1.
  split; [destruct y; reflexivity|].
  rewrite H2, H3. cbn. rewrite (Nat.eqb_refl l). reflexivity.
Qed.

(** ** Witnesses: the theorems above applied to concrete queues *)

Lemma get_tool_empty_queue_witness :
  get_execute (LD := MemoryLoader (mkConfig true None true)) (mkConfig true None true)
    (mkGetToolConfig (Some true) None) (mkGetParams (Some "back")) memory_world0
  = (Ok (createSuccessResponse "Queue is empty"), memory_world0).
Proof. apply get_tool_empty_queue; reflexivity. Defined.

Lemma get_tool_cached_front_witness :
  exists w',
    get_execute (LD := MemoryLoader (mkConfig true None true)) (mkConfig true None true)
      (mkGetToolConfig None None) (mkGetParams (Some "back"))
      (set_heap (hwrite (w_heap memory_world0) 1 [JNum 0 0; JStr "a"]) memory_world0)
    = (Ok (createSuccessResponse "Queue is empty"), w')
    /\ contents (LD := MemoryLoader (mkConfig true None true)) (mkConfig true None true) w'
       = Some [JStr "a"].
Proof.
  apply (get_tool_cached_front (mkConfig true None true) (mkGetToolConfig None None)
           (mkGetParams (Some "back"))
           (set_heap (hwrite (w_heap memory_world0) 1 [JNum 0 0; JStr "a"]) memory_world0)
           (JNum 0 0) [JStr "a"]); reflexivity.
Defined.

Lemma get_tool_cached_back_witness :
  exists w',
    get_execute (LD := MemoryLoader (mkConfig true None true)) (mkConfig true None true)
      (mkGetToolConfig (Some true) None) (mkGetParams (Some "back"))
      (set_heap (hwrite (w_heap memory_world0) 1 [JNum 0 0; JStr "a"]) memory_world0)
    = (Ok (createSuccessResponse (json_pretty (JStr "a"))), w')
    /\ contents (LD := MemoryLoader (mkConfig true None true)) (mkConfig true None true) w'
       = Some [JNum 0 0].
Proof.
  apply (get_tool_cached_back (mkConfig true None true) (mkGetToolConfig (Some true) None)
           (mkGetParams (Some "back"))
           (set_heap (hwrite (w_heap memory_world0) 1 [JNum 0 0; JStr "a"]) memory_world0)
           [JNum 0 0; JStr "a"]); [reflexivity | reflexivity | discriminate | reflexivity].
Defined.

Lemma push_tool_rejects_non_object_witness :
  push_execute (LD := MemoryLoader (mkConfig true None true)) (mkConfig true None true)
    (mkPushToolConfig None None) (mkPushParams (Some (JStr "task")) None) memory_world0
  = (Ok (createErrorResponse "Item parameter must be an object"), memory_world0).
Proof.
  apply push_tool_rejects_non_object. right. exists (JStr "task"). split; [reflexivity|exact I].
Defined.

Lemma push_tool_rejects_invalid_witness :
  push_execute (LD := MemoryLoader (mkConfig true None true)) (mkConfig true None true)
    (mkPushToolConfig None None) (mkPushParams (Some (JObj [("task", JNum 1 0)])) None)
    (set_mgr (mkMgr 1 true (Some [("task", "string")])) memory_world0)
  = (Ok (createErrorResponse "Item does not match the required schema"),
     set_mgr (mkMgr 1 true (Some [("task", "string")])) memory_world0).
Proof.
  apply (push_tool_rejects_invalid _ _ _ _ (JObj [("task", JNum 1 0)]));
    [reflexivity | exact I | reflexivity].
Defined.

Lemma push_tool_cached_witness :
  exists w',
    push_execute (LD := MemoryLoader (mkConfig true None true)) (mkConfig true None true)
      (mkPushToolConfig (Some false) None)
      (mkPushParams (Some (JObj [("task", JStr "b")])) (Some "front"))
      (set_heap (hwrite (w_heap memory_world0) 1 [JStr "a"]) memory_world0)
    = (Ok (createSuccessResponse "Item added to queue"), w')
    /\ contents (LD := MemoryLoader (mkConfig true None true)) (mkConfig true None true) w'
       = Some [JObj [("task", JStr "b")]; JStr "a"].
Proof.
  apply (push_tool_cached (mkConfig true None true) (mkPushToolConfig (Some false) None)
           (mkPushParams (Some (JObj [("task", JStr "b")])) (Some "front"))
           (set_heap (hwrite (w_heap memory_world0) 1 [JStr "a"]) memory_world0)
           (JObj [("task", JStr "b")]) [JStr "a"]);
    [reflexivity | reflexivity | reflexivity | exact I | reflexivity].
Defined.

Lemma inferSchema_self_valid_witness :
  validateItem (Some (inferSchema (JObj [("a", JNum 1 0); ("b", JObj [])])))
    (JObj [("a", JNum 1 0); ("b", JObj [])]) = true.
Proof.
  apply (proj2 (inferSchema_self_valid [("a", JNum 1 0); ("b", JObj [])]
                  ltac:(repeat constructor; simpl; intuition discriminate))).
  repeat constructor; intros _; discriminate.
Defined.

Lemma initialize_loads_first_file_witness :
  exists w',
    mgr_initialize (LD := JsonLoader (mkConfig false None false)) (mkConfig false None false)
      (new_file_world [("notes.txt", JsonOther); ("queue.json", JsonArray [JObj [("task", JStr "a")]])])
    = (Ok tt, w')
    /\ m_itemTemplate (w_mgr w') = Some [("task", "string")]
    /\ contents (LD := JsonLoader (mkConfig false None false)) (mkConfig false None false) w'
       = Some [JObj [("task", JStr "a")]].
Proof.
  apply (initialize_loads_first_file json_file ".json" "queue.json" json_decode json_encode
           (mkConfig false None false)
           [("notes.txt", JsonOther); ("queue.json", JsonArray [JObj [("task", JStr "a")]])]
           "queue.json" [] (JsonArray [JObj [("task", JStr "a")]]) [JObj [("task", JStr "a")]]);
    reflexivity.
Defined.

Lemma initialize_without_readable_file_witness :
  exists w',
    mgr_initialize (LD := JsonLoader (mkConfig false None false)) (mkConfig false None false)
      (new_file_world [("queue.json", JsonOther)]) = (Ok tt, w')
    /\ m_itemTemplate (w_mgr w') = None
    /\ contents (LD := JsonLoader (mkConfig false None false)) (mkConfig false None false) w'
       = None.
Proof.
  apply (proj2 (initialize_without_readable_file json_file ".json" "queue.json" json_decode
                  json_encode (mkConfig false None false) [("queue.json", JsonOther)])
           "queue.json" []); reflexivity.
Defined.

Lemma file_template_missing_witness :
  replaceFromTemplate (LD := JsonLoader (mkConfig false None false)) (mkConfig false None false)
    "t" (new_file_world [("queue.json", JsonArray [])])
  = (Err (not_found "t"), new_file_world [("queue.json", JsonArray [])]).
Proof.
  apply (proj1 (file_template_missing json_file ".json" "queue.json" json_decode json_encode
                  (mkConfig false None false) (new_file_world [("queue.json", JsonArray [])]) "t"
                  eq_refl eq_refl)).
Defined.

Lemma memory_templates_empty_passthrough_witness :
  exists w',
    addBackFromTemplate (LD := MemoryLoader (mkConfig false None true)) (mkConfig false None true)
      "t" (set_loader (mkMem true 0) (set_heap (hwrite (w_heap memory_world0) 0 [JStr "a"])
                                              memory_world0)) = (Ok tt, w')
    /\ contents (LD := MemoryLoader (mkConfig false None true)) (mkConfig false None true) w'
       = Some [].
Proof.
  apply (proj2 (proj2 (memory_templates_empty_passthrough (mkConfig false None true)
     (set_loader (mkMem true 0) (set_heap (hwrite (w_heap memory_world0) 0 [JStr "a"])
                                         memory_world0)) "t" eq_refl))).
Defined.

Lemma memory_templates_empty_cached_witness :
  exists w',
    addFrontFromTemplate (LD := MemoryLoader (mkConfig true None true)) (mkConfig true None true)
      "t" (set_heap (hwrite (w_heap memory_world0) 1 [JStr "a"]) memory_world0) = (Ok tt, w')
    /\ contents (LD := MemoryLoader (mkConfig true None true)) (mkConfig true None true) w'
       = Some [JStr "a"].
Proof.
  apply (proj1 (proj2 (memory_templates_empty_cached (mkConfig true None true)
     (set_heap (hwrite (w_heap memory_world0) 1 [JStr "a"]) memory_world0) "t" [JStr "a"]
     eq_refl ltac:(simpl; lia) eq_refl))).
Defined.

Lemma file_templates_cached_witness :
  exists w',
    addBackFromTemplate (LD := JsonLoader (mkConfig true None false)) (mkConfig true None false)
      "t" (set_heap (hwrite (w_heap (new_file_world [("t.json", JsonArray [JStr "t1"])])) 1
                            [JStr "q"])
                    (new_file_world [("t.json", JsonArray [JStr "t1"])])) = (Ok tt, w')
    /\ contents (LD := JsonLoader (mkConfig true None false)) (mkConfig true None false) w'
       = Some [JStr "q"; JStr "t1"].
Proof.
  apply (proj2 (proj2 (file_templates_cached json_file ".json" "queue.json" json_decode
     json_encode (mkConfig true None false)
     (set_heap (hwrite (w_heap (new_file_world [("t.json", JsonArray [JStr "t1"])])) 1 [JStr "q"])
               (new_file_world [("t.json", JsonArray [JStr "t1"])]))
     "t" (JsonArray [JStr "t1"]) [JStr "t1"] [JStr "q"]
     eq_refl ltac:(simpl; lia) eq_refl eq_refl eq_refl))).
Defined.

Lemma file_replace_passthrough_witness :
  exists w',
    replaceFromTemplate (LD := JsonLoader (mkConfig false None false)) (mkConfig false None false)
      "t" (new_file_world [("queue.json", JsonArray [JStr "q"]); ("t.json", JsonArray [JStr "t1"])])
    = (Ok tt, w')
    /\ contents (LD := JsonLoader (mkConfig false None false)) (mkConfig false None false) w'
       = Some [JStr "t1"]
    /\ fl_activeFile (w_loader w') = Some (filename_of ".json" "t")
    /\ (forall g, g <> filename_of ".json" "t" ->
        fs_lookup g (w_fs w') = fs_lookup g [("queue.json", JsonArray [JStr "q"]);
                                             ("t.json", JsonArray [JStr "t1"])]).
Proof.
  apply (file_replace_passthrough (mkConfig false None false)
     (new_file_world [("queue.json", JsonArray [JStr "q"]); ("t.json", JsonArray [JStr "t1"])])
     "t" (JsonArray [JStr "t1"]) [JStr "t1"]); reflexivity.
Defined.

Lemma initialize_idempotent_witness :
  mgr_initialize (LD := MemoryLoader (mkConfig true None true)) (mkConfig true None true)
    (snd (mgr_initialize (LD := MemoryLoader (mkConfig true None true)) (mkConfig true None true)
            memory_world0))
  = (Ok tt, snd (mgr_initialize (LD := MemoryLoader (mkConfig true None true))
                   (mkConfig true None true) memory_world0)).
Proof.
  apply (initialize_idempotent (mkConfig true None true) memory_world0). vm_compute. reflexivity.
Defined.

Lemma csv_push_null_fails_witness :
  (exists w',
     pushFront (LD := CsvLoader (mkConfig false None false)) (mkConfig false None false) JNull
       (set_loader (mkFl true None 0 (Some "queue.csv"))
                   (new_file_world [("queue.csv", [["task"]; ["a"]])]))
     = (Err ("Failed to save CSV file: " ++ "queue.csv"), w')
     /\ w_fs w' = [("queue.csv", [["task"]; ["a"]])])
  /\ (exists w',
     pushBack (LD := CsvLoader (mkConfig false None false)) (mkConfig false None false) JNull
       (set_loader (mkFl true None 0 (Some "queue.csv"))
                   (new_file_world [("queue.csv", [["task"]; ["a"]])]))
     = (Err ("Failed to save CSV file: " ++ "queue.csv"), w')
     /\ w_fs w' = [("queue.csv", [["task"]; ["a"]])]).
Proof.
  destruct (csv_push_null_fails (mkConfig false None false)
              (set_loader (mkFl true None 0 (Some "queue.csv"))
                          (new_file_world [("queue.csv", [["task"]; ["a"]])]))
              "queue.csv" [["task"]; ["a"]] eq_refl eq_refl eq_refl eq_refl) as [H1 H2].
  split; [exact H1|].
  apply (H2 (JObj [("task", JStr "a")]) []); [reflexivity | discriminate].
Defined.


Lemma get_tool_json_passthrough_front_witness :
  exists w',
    get_execute (LD := JsonLoader (mkConfig false None false)) (mkConfig false None false)
      (mkGetToolConfig None None) (mkGetParams None)
      (new_file_world [("queue.json", JsonArray [JNum 0 0; JStr "a"])])
    = (Ok (createSuccessResponse "0"), w')
    /\ contents (LD := JsonLoader (mkConfig false None false)) (mkConfig false None false) w'
       = Some [JStr "a"].
Proof.
  apply (get_tool_json_passthrough_front (mkConfig false None false) (mkGetToolConfig None None)
           (mkGetParams None) (new_file_world [("queue.json", JsonArray [JNum 0 0; JStr "a"])])
           (JNum 0 0) [JStr "a"]); reflexivity.
Defined.
